(** * The bridged interactive grader (dmoj/graders/bridged.py)

    A shallow embedding of [BridgedInteractiveGrader]: the construction of the
    grader, the launch of the submission on a pair of pipes, the interaction
    session with the interactor, and the reconciliation of the verdict.

    Python values of the YAML configuration are an inductive type, Python
    exceptions are an inductive type, and every call that leaves the file
    (the executors, the compiler, the contrib modules, the operating system,
    the superclass) is an operation of a small interaction monad.  A run of a
    method against an arbitrary environment yields the list of the calls it
    made, in program order, together with its result or the exception it
    raised. *)

From Stdlib Require Import ZArith Ascii String List Lia Floats Uint63.
From stdpp Require Import base option gmap strings list pretty.

Set Warnings "-register-all".

Local Open Scope string_scope.
Local Open Scope Z_scope.

(** ** Python values *)

(** The values a YAML configuration holds.  A number is a Python [int] or a
    Python [float], an IEEE binary64 value. *)
Inductive PyVal : Type :=
| PNone
| PBool (b : bool)
| PInt (n : Z)
| PFloat (x : float)
| PStr (s : string)
| PList (l : list PyVal)
| PDict (d : gmap string PyVal).

(** Python exceptions.  [InternalError] and [CompileError] are the judge's own
    (dmoj.error); [raise ... from e] records [e] as the cause. *)
Inductive PyExn : Type :=
| InternalError (msg : string) (cause : option PyExn)
| CompileError (msg : string)
| AttributeError (msg : string)
| UnboundLocalError (name : string)
| AssertionError
| KeyError (key : PyVal)
| TypeError (msg : string)
| OtherError (name : string).

Definition bytes := list Byte.byte.
Definition fd := Z.

(** A number that is no configuration value: a time limit. *)
Inductive PyNum : Type :=
| NInt (n : Z)
| NFloat (x : float).

Coercion NInt : Z >-> PyNum.

(** Truth value of a Python value, as [if v], [v or w] test it.  A float is
    false when it equals zero (0.0 and -0.0; a NaN is true).  A list or a
    mapping read out of a configuration is wrapped in a ConfigNode object,
    which is false when it is empty. *)
Definition py_truthy (v : PyVal) : bool :=
  match v with
  | PNone => false
  | PBool b => b
  | PInt n => negb (n =? 0)
  | PFloat x => negb (PrimFloat.eqb x PrimFloat.zero)
  | PStr s => negb (String.eqb s "")
  | PList l => match l with [] => false | _ :: _ => true end
  | PDict d => negb (Nat.eqb (size d) 0)
  end.

(** [v or w] *)
Definition py_or (v w : PyVal) : PyVal := if py_truthy v then v else w.

(** [v != s] for a string literal [s]: values of another type differ from it. *)
Definition py_ne_str (v : PyVal) (s : string) : bool :=
  match v with
  | PStr s' => negb (String.eqb s' s)
  | _ => true
  end.

(** The number a value stands for in arithmetic; [bool] is a subtype of
    [int]. *)
Definition py_num (v : PyVal) : option PyNum :=
  match v with
  | PInt n => Some (NInt n)
  | PBool b => Some (NInt (if b then 1 else 0))
  | PFloat x => Some (NFloat x)
  | _ => None
  end.

Definition num_val (a : PyNum) : PyVal :=
  match a with
  | NInt n => PInt n
  | NFloat x => PFloat x
  end.

Definition py_type_name (v : PyVal) : string :=
  match v with
  | PNone => "NoneType"
  | PBool _ => "bool"
  | PInt _ => "int"
  | PFloat _ => "float"
  | PStr _ => "str"
  | PList _ => "ConfigNode"
  | PDict _ => "ConfigNode"
  end.

(** Arithmetic on numbers, with [to_float] the conversion of an [int] to a
    [float] (which raises OverflowError for an [int] too large): two ints
    give the exact int; when one operand is a float the other is converted
    and the operation is that of binary64. *)
Definition num_float (to_float : Z -> PyExn + float) (a : PyNum) : PyExn + float :=
  match a with
  | NInt n => to_float n
  | NFloat x => inr x
  end.

Definition num_op (to_float : Z -> PyExn + float)
    (op_int : Z -> Z -> Z) (op_float : float -> float -> float) (a b : PyNum)
  : PyExn + PyNum :=
  match a, b with
  | NInt m, NInt n => inr (NInt (op_int m n))
  | _, _ =>
      match num_float to_float a with
      | inl e => inl e
      | inr x =>
          match num_float to_float b with
          | inl e => inl e
          | inr y => inr (NFloat (op_float x y))
          end
      end
  end.

Definition num_add (to_float : Z -> PyExn + float) : PyNum -> PyNum -> PyExn + PyNum :=
  num_op to_float Z.add PrimFloat.add.

Definition num_mul (to_float : Z -> PyExn + float) : PyNum -> PyNum -> PyExn + PyNum :=
  num_op to_float Z.mul PrimFloat.mul.

(** [s * n]: the string repeated, empty for [n <= 0]. *)
Fixpoint str_repeat_nat (s : string) (n : nat) : string :=
  match n with
  | O => ""
  | S n' => s +:+ str_repeat_nat s n'
  end.

Definition str_repeat (s : string) (n : Z) : string := str_repeat_nat s (Z.to_nat n).

(** ** The data of the judge *)

(** Modelled from the spec: ConfigNode (dmoj.config) is not under src/.  It is
    a configuration object read with fallbacks: [node.key] and [node['key']]
    give the value of [key], or [None] when the node has no such key, and
    [node.get(key, default)] gives [default] when the node has no such key.
    A list or a mapping it gives is a node again: false when it is empty, and
    an empty one unwraps to an empty mapping, be it written as a list. *)
Definition cfg_getitem (node : gmap string PyVal) (key : string) : PyVal :=
  default PNone (node !! key).

Definition cfg_getattr (node : gmap string PyVal) (key : string) : PyVal :=
  cfg_getitem node key.

Definition cfg_get (node : gmap string PyVal) (key : string) (dflt : PyVal) : PyVal :=
  default dflt (node !! key).

(** An executable handle (dmoj.executors.base_executor.BaseExecutor). *)
Record BaseExecutor : Type := { executor_id : nat }.

(** A launched process: the executor's handle, with its captured stderr pipe
    when it was launched with [stderr=subprocess.PIPE]. *)
Record Proc : Type := { proc_id : nat; proc_stderr : option fd }.

(** The module objects the registry [contrib_modules] holds. *)
Record ContribModule : Type := { module_name : string }.

Record JudgeWorker : Type := { judge_id : nat }.

(** [problem.config]: the grader reads its [interactive] node. *)
Record ProblemConfig : Type := { interactive : gmap string PyVal }.

Record Problem : Type := {
  problem_id : string;
  storage_namespace : option string;
  time_limit : PyNum;
  memory_limit : Z;
  problem_config : ProblemConfig
}.

Record TestCase : Type := {
  position : nat;
  points : Z;
  case_config : gmap string PyVal
}.

(** The raw outcome of the submission (dmoj.result.Result). *)
Record Result : Type := {
  result_flag : Z;
  proc_output : bytes
}.

(** The structured verdict a contrib module parses out of the interactor's
    exit (dmoj.result.CheckerResult). *)
Record CheckerResult : Type := {
  passed : bool;
  awarded_points : Z;
  feedback : string;
  extended_feedback : string
}.

(** [CheckerOutput = Union[bool, CheckerResult]] *)
Inductive CheckerOutput : Type :=
| CO_bool (b : bool)
| CO_result (r : CheckerResult).

(** How the grading pipeline reads a checker output: a bare boolean is the
    verdict, a structured result carries it in [passed]. *)
Definition verdict_passed (o : CheckerOutput) : bool :=
  match o with
  | CO_bool b => b
  | CO_result r => passed r
  end.

Record TempFile : Type := { file_name : string }.

(** The keyword arguments of [BaseExecutor.launch]. *)
Record LaunchKwargs : Type := {
  kw_time : PyNum;
  kw_memory : PyVal;
  kw_symlinks : option PyVal;
  kw_stdin : fd;
  kw_stdout : fd;
  kw_stderr_pipe : bool;
  kw_wall_time : option PyVal;
  kw_file_io : option (gmap string PyVal)
}.

(** What the superclass (dmoj.graders.standard.StandardGrader) keeps in
    [self]. *)
Record StandardGrader : Type := {
  judge : JudgeWorker;
  problem : Problem;
  language : string;
  source : bytes;
  binary : BaseExecutor;
  _current_proc : option Proc
}.

(** [self] of a BridgedInteractiveGrader.  The attributes of the second group
    do not exist before the methods that assign them have run: reading one
    that is [None] here raises AttributeError. *)
Record BridgedInteractiveGrader : Type := {
  base : StandardGrader;
  handler_data : gmap string PyVal;
  interactor_binary : BaseExecutor;
  contrib_type : PyVal;

  _interactor_stdin_pipe : option fd;
  _interactor_stdout_pipe : option fd;
  _interactor_time_limit : option PyNum;
  _interactor_memory_limit : option PyVal;
  _interactor : option Proc;
  _interactor_stderr : option bytes
}.

(** ** The calls that leave the file *)

Inductive Op : Type -> Type :=
| StandardGrader_init (j : JudgeWorker) (p : Problem) (lang : string) (src : bytes)
    : Op StandardGrader
| StandardGrader_check_result (self : StandardGrader) (case : TestCase) (result : Result)
    : Op CheckerOutput
| get_problem_root (id : string) (ns : option string) : Op (option string)
| compile_with_auxiliary_files
    (filenames : list string) (flags lang compiler_time_limit unbuffered : PyVal)
    : Op BaseExecutor
| parse_return_code
    (m : ContribModule) (proc : Proc) (executor : BaseExecutor) (point_value : Z)
    (time_limit : PyNum) (memory_limit : PyVal) (feedback extended_feedback name : string)
    (stderr : bytes)
    : Op CheckerResult
| get_interactor_args_format_string (m : ContribModule) : Op string
| os_pipe : Op (fd * fd)
| os_close (f : fd) : Op unit
| launch (b : BaseExecutor) (args : list string) (kw : LaunchKwargs) : Op Proc
| communicate (p : Proc) : Op (bytes * bytes)
| wait (p : Proc) : Op Z
| stderr_read (p : Proc) : Op bytes
| output_data (case : TestCase) : Op bytes
| mktemp (data : bytes) : Op TempFile
| mktemp_exit (f : TempFile) : Op unit
| random_choices (population : string) (k : nat) : Op (list string).

(** ** The interaction monad *)

(** A program returns, raises, or makes a call and continues with what the
    call returned or raised. *)
Inductive Prog (A : Type) : Type :=
| Ret (a : A)
| Raise (e : PyExn)
| Call (R : Type) (o : Op R) (k : PyExn + R -> Prog A).

Arguments Ret {A} a.
Arguments Raise {A} e.
Arguments Call {A R} o k.

Fixpoint bind {A B : Type} (p : Prog A) (f : A -> Prog B) : Prog B :=
  match p with
  | Ret a => f a
  | Raise e => Raise e
  | Call o k => Call o (fun r => bind (k r) f)
  end.

(** A call whose exception, if any, propagates. *)
Definition call {R : Type} (o : Op R) : Prog R :=
  Call o (fun r => match r with inl e => Raise e | inr v => Ret v end).

(** A pure expression that may raise. *)
Definition lift {A : Type} (r : PyExn + A) : Prog A :=
  match r with inl e => Raise e | inr a => Ret a end.

(** [try: p except: h] *)
Fixpoint try_except {A : Type} (p : Prog A) (h : PyExn -> Prog A) : Prog A :=
  match p with
  | Ret a => Ret a
  | Raise e => h e
  | Call o k => Call o (fun r => try_except (k r) h)
  end.

(** [try: p finally: fin] *)
Fixpoint try_finally {A : Type} (p : Prog A) (fin : Prog unit) : Prog A :=
  match p with
  | Ret a => bind fin (fun _ => Ret a)
  | Raise e => bind fin (fun _ => Raise e)
  | Call o k => Call o (fun r => try_finally (k r) fin)
  end.

(** The programs are a monad for stdpp's notation [x ← p; q]. *)
#[export] Instance Prog_ret : MRet Prog := @Ret.
#[export] Instance Prog_bind : MBind Prog := fun A B f p => bind p f.

(** Reading an attribute of [self] that an earlier method assigns. *)
Definition self_attr {A : Type} (name : string) (v : option A) : Prog A :=
  match v with
  | Some a => Ret a
  | None => Raise (AttributeError name)
  end.

(** [with mktemp(data) as f: body] *)
Definition with_mktemp {A : Type} (data : bytes) (body : TempFile -> Prog A) : Prog A :=
  f ← call (mktemp data);
  try_finally (body f) (call (mktemp_exit f)).

(** ** Running a program against an environment *)

(** One entry of the log: the call made and what it returned or raised. *)
Inductive Event : Type :=
| Ev (R : Type) (o : Op R) (r : PyExn + R).
Arguments Ev {R} o r.

(** The environment answers every call, from a state of its own. *)
Definition Handler (W : Type) : Type := forall R : Type, Op R -> W -> (PyExn + R) * W.

Fixpoint run {W A : Type} (h : Handler W) (p : Prog A) (w : W)
  : list Event * (PyExn + A) * W :=
  match p with
  | Ret a => ([], inr a, w)
  | Raise e => ([], inl e, w)
  | Call o k =>
      let '(r, w') := h _ o w in
      let '(tr, out, w'') := run h (k r) w' in
      (Ev o r :: tr, out, w'')
  end.

Definition trace_of {W A : Type} (h : Handler W) (p : Prog A) (w : W) : list Event :=
  fst (fst (run h p w)).

Definition outcome_of {W A : Type} (h : Handler W) (p : Prog A) (w : W) : PyExn + A :=
  snd (fst (run h p w)).

(** [all_runs p Q]: whatever the environment answers, the calls [p] makes and
    the way it ends satisfy [Q]. *)
Fixpoint all_runs {A : Type} (p : Prog A) (Q : list Event -> PyExn + A -> Prop) : Prop :=
  match p with
  | Ret a => Q [] (inr a)
  | Raise e => Q [] (inl e)
  | Call o k => forall r, all_runs (k r) (fun tr out => Q (Ev o r :: tr) out)
  end.

(** The calls of the constructor: the superclass constructor, the look-up of
    the problem's storage root and the compiler. *)
Definition construction_call (e : Event) : bool :=
  match e with
  | Ev o _ =>
      match o with
      | StandardGrader_init _ _ _ _ => true
      | get_problem_root _ _ => true
      | compile_with_auxiliary_files _ _ _ _ _ => true
      | _ => false
      end
  end.

(** ** Paths *)

Fixpoint str_endswith (s : string) (c : Ascii.ascii) : bool :=
  match s with
  | EmptyString => false
  | String a EmptyString => Ascii.eqb a c
  | String _ rest => str_endswith rest c
  end.

Definition str_startswith (s : string) (c : Ascii.ascii) : bool :=
  match s with
  | String a _ => Ascii.eqb a c
  | EmptyString => false
  end.

(** [os.path.join(a, b)] of posixpath, for two components: an absolute [b]
    replaces [a]; otherwise [b] is appended, after a separator unless [a] is
    empty or ends with one. *)
Definition path_join (a b : string) : string :=
  if str_startswith b "/"%char then b
  else if String.eqb a "" || str_endswith a "/"%char then a +:+ b
  else a +:+ "/" +:+ b.

Definition os_path_join (a : string) (b : PyVal) : PyExn + string :=
  match b with
  | PStr b => inr (path_join a b)
  | _ => inl (TypeError ("expected str, bytes or os.PathLike object, not " +:+ py_type_name b))
  end.

(** [[f x for x in l]] for an [f] that may raise: the first exception ends the
    comprehension. *)
Fixpoint list_comprehension {A B : Type} (f : A -> PyExn + B) (l : list A) : PyExn + list B :=
  match l with
  | [] => inr []
  | x :: rest =>
      match f x with
      | inl e => inl e
      | inr y =>
          match list_comprehension f rest with
          | inl e => inl e
          | inr ys => inr (y :: ys)
          end
      end
  end.

(** ** An environment to run the grader in *)

(** The answers of a simple environment: the compiler, the contrib module and
    the secondary checker answer as the state says; pipes and processes are
    numbered as they are made; everything else succeeds. *)
Record World : Type := {
  compile_answer : PyExn + BaseExecutor;
  parse_answer : PyExn + CheckerResult;
  checker_answer : PyExn + CheckerOutput;
  next_fd : Z;
  next_pid : nat
}.

Definition ex_handler : Handler World :=
  fun R o =>
    match o in Op R return World -> (PyExn + R) * World with
    | StandardGrader_init j p lang src =>
        fun w => (inr {| judge := j; problem := p; language := lang; source := src;
                         binary := {| executor_id := 1 |}; _current_proc := None |}, w)
    | StandardGrader_check_result _ _ _ => fun w => (checker_answer w, w)
    | get_problem_root id _ => fun w => (inr (Some ("/problems/" +:+ id)), w)
    | compile_with_auxiliary_files _ _ _ _ _ => fun w => (compile_answer w, w)
    | parse_return_code _ _ _ _ _ _ _ _ _ _ => fun w => (parse_answer w, w)
    | get_interactor_args_format_string _ =>
        fun w => (inr "{input_file} {output_file} {answer_file}", w)
    | os_pipe =>
        fun w => (inr (next_fd w, next_fd w + 1),
                  {| compile_answer := compile_answer w; parse_answer := parse_answer w;
                     checker_answer := checker_answer w;
                     next_fd := next_fd w + 2; next_pid := next_pid w |})
    | os_close _ => fun w => (inr tt, w)
    | launch _ _ _ =>
        fun w => (inr {| proc_id := next_pid w; proc_stderr := Some (next_fd w) |},
                  {| compile_answer := compile_answer w; parse_answer := parse_answer w;
                     checker_answer := checker_answer w;
                     next_fd := next_fd w + 1; next_pid := S (next_pid w) |})
    | communicate _ => fun w => (inr ([], []), w)
    | wait _ => fun w => (inr 0, w)
    | stderr_read _ => fun w => (inr [], w)
    | output_data _ => fun w => (inr [], w)
    | mktemp _ => fun w => (inr {| file_name := "/tmp/tmpfile" |}, w)
    | mktemp_exit _ => fun w => (inr tt, w)
    | random_choices _ k => fun w => (inr (repeat "a" k), w)
    end.

Definition ex_registry : gmap string ContribModule :=
  {[ "default" := {| module_name := "dmoj.contrib.default" |};
     "testlib" := {| module_name := "dmoj.contrib.testlib" |} ]}.

Definition ex_env : gmap string PyVal := {[ "generator_memory_limit" := PInt 524288 ]}.

Definition ex_utf8text (b : bytes) (errors : string) : string := string_of_list_byte b.

(** [float(n)]: exact below 2^53, and refused here above. *)
Definition ex_float_of_int (n : Z) : PyExn + float :=
  if Z.abs n <? 2 ^ 53 then
    inr (if n <? 0 then PrimFloat.opp (PrimFloat.of_uint63 (Uint63.of_Z (- n)))
         else PrimFloat.of_uint63 (Uint63.of_Z n))
  else inl (OtherError "OverflowError").

(** A stand-in for [repr] of a float. *)
Definition ex_float_repr (x : float) : string := "<float>".
Definition ex_shlex_quote (s : string) : string := s.
Definition ex_shlex_split (s : string) : PyExn + list string := inr [s].
Definition ex_str_format (template : string) (kwargs : list (string * string)) : PyExn + string :=
  inr template.

(** Handler configurations: a single interactor source and no [type]; an
    unknown [type]; a mapping where the file list should be; a preprocessing
    time together with a field that would override the time limit. *)
Definition ex_handler_data : gmap string PyVal :=
  {[ "files" := PStr "interactor.cpp"; "lang" := PStr "CPP17" ]}.

Definition ex_handler_data_unknown : gmap string PyVal :=
  <[ "type" := PStr "nonexistent" ]> ex_handler_data.

Definition ex_handler_data_mapping : gmap string PyVal :=
  {[ "files" := PDict {[ "main" := PStr "interactor.cpp" ]}; "lang" := PStr "CPP17" ]}.

Definition ex_problem (hd : gmap string PyVal) : Problem :=
  {| problem_id := "aplusb";
     storage_namespace := None;
     time_limit := 1;
     memory_limit := 65536;
     problem_config := {| interactive := hd |} |}.

Definition ex_judge : JudgeWorker := {| judge_id := 0 |}.

Definition ex_case : TestCase :=
  {| position := 1; points := 10; case_config := {[ "wall_time_factor" := PInt 3 ]} |}.

Definition ex_case_custom : TestCase :=
  {| position := 2; points := 10;
     case_config := {[ "wall_time_factor" := PInt 3; "checker" := PStr "sorted" ]} |}.

Definition ex_parsed : CheckerResult :=
  {| passed := true; awarded_points := 10; feedback := ""; extended_feedback := "" |}.

Definition ex_world : World :=
  {| compile_answer := inr {| executor_id := 2 |};
     parse_answer := inr ex_parsed;
     checker_answer := inr (CO_bool false);
     next_fd := 3;
     next_pid := 100 |}.

(** The interactor does not compile. *)
Definition ex_world_broken : World :=
  {| compile_answer := inl (CompileError "interactor.cpp:1: error");
     parse_answer := inr ex_parsed;
     checker_answer := inr (CO_bool false);
     next_fd := 3;
     next_pid := 100 |}.

(** The interactor crashed: the contrib module raises the internal error. *)
Definition ex_world_crashed : World :=
  {| compile_answer := inr {| executor_id := 2 |};
     parse_answer := inl (InternalError "interactor crashed" None);
     checker_answer := inr (CO_bool false);
     next_fd := 3;
     next_pid := 100 |}.

Definition ex_world1 : World :=
  {| compile_answer := compile_answer ex_world; parse_answer := parse_answer ex_world;
     checker_answer := checker_answer ex_world; next_fd := 8; next_pid := 101 |}.

Definition ex_world2 : World :=
  {| compile_answer := compile_answer ex_world; parse_answer := parse_answer ex_world;
     checker_answer := checker_answer ex_world; next_fd := 9; next_pid := 102 |}.

Definition ex_world_crashed2 : World :=
  {| compile_answer := compile_answer ex_world_crashed;
     parse_answer := parse_answer ex_world_crashed;
     checker_answer := checker_answer ex_world_crashed; next_fd := 9; next_pid := 102 |}.

(** The grader after construction, after the launch of the submission and
    after the session, in [ex_world]. *)
Definition ex_self0 : BridgedInteractiveGrader :=
  {| base := {| judge := ex_judge; problem := ex_problem ex_handler_data; language := "PY3";
                source := []; binary := {| executor_id := 1 |}; _current_proc := None |};
     handler_data := ex_handler_data;
     interactor_binary := {| executor_id := 2 |};
     contrib_type := PStr "default";
     _interactor_stdin_pipe := None;
     _interactor_stdout_pipe := None;
     _interactor_time_limit := None;
     _interactor_memory_limit := None;
     _interactor := None;
     _interactor_stderr := None |}.

Definition ex_current_proc : Proc := {| proc_id := 100; proc_stderr := Some 7 |}.
Definition ex_interactor : Proc := {| proc_id := 101; proc_stderr := Some 8 |}.

Definition ex_self1 : BridgedInteractiveGrader :=
  {| base := {| judge := ex_judge; problem := ex_problem ex_handler_data; language := "PY3";
                source := []; binary := {| executor_id := 1 |};
                _current_proc := Some ex_current_proc |};
     handler_data := ex_handler_data;
     interactor_binary := {| executor_id := 2 |};
     contrib_type := PStr "default";
     _interactor_stdin_pipe := Some 3;
     _interactor_stdout_pipe := Some 6;
     _interactor_time_limit := None;
     _interactor_memory_limit := None;
     _interactor := None;
     _interactor_stderr := None |}.

Definition ex_self2 : BridgedInteractiveGrader :=
  {| base := base ex_self1;
     handler_data := ex_handler_data;
     interactor_binary := {| executor_id := 2 |};
     contrib_type := PStr "default";
     _interactor_stdin_pipe := Some 3;
     _interactor_stdout_pipe := Some 6;
     _interactor_time_limit := Some (NInt 3);
     _interactor_memory_limit := Some (PInt 524288);
     _interactor := Some ex_interactor;
     _interactor_stderr := Some [] |}.

(** A clean run of the submission, and one that exceeded its time limit
    (the flag TLE of dmoj.result.Result is 4). *)
Definition ex_result : Result := {| result_flag := 0; proc_output := [] |}.
Definition ex_result_tle : Result := {| result_flag := 4; proc_output := [] |}.

(** The same environment, but the submission does not compile: the
    superclass constructor raises the compile error. *)
Definition ex_handler_no_submission : Handler World :=
  fun R o =>
    match o in Op R return World -> (PyExn + R) * World with
    | StandardGrader_init _ _ _ _ => fun w => (inl (CompileError "submission.py: error"), w)
    | o' => ex_handler _ o'
    end.

(** The same environment, but the problem has no storage root. *)
Definition ex_handler_no_root : Handler World :=
  fun R o =>
    match o in Op R return World -> (PyExn + R) * World with
    | get_problem_root _ _ => fun w => (inr None, w)
    | o' => ex_handler _ o'
    end.

(** The same environment, but no process can be launched. *)
Definition ex_handler_no_launch : Handler World :=
  fun R o =>
    match o in Op R return World -> (PyExn + R) * World with
    | launch _ _ _ => fun w => (inl (OtherError "OSError"), w)
    | o' => ex_handler _ o'
    end.

(** A fractional preprocessing time and a fractional time limit. *)
Definition ex_handler_data_float : gmap string PyVal :=
  {[ "files" := PStr "interactor.cpp"; "lang" := PStr "CPP17";
     "preprocessing_time" := PFloat 0.5 ]}.

Definition ex_self1_float : BridgedInteractiveGrader :=
  {| base := {| judge := ex_judge;
                problem := {| problem_id := "aplusb"; storage_namespace := None;
                              time_limit := NFloat 1.5; memory_limit := 65536;
                              problem_config := {| interactive := ex_handler_data_float |} |};
                language := "PY3"; source := []; binary := {| executor_id := 1 |};
                _current_proc := Some ex_current_proc |};
     handler_data := ex_handler_data_float;
     interactor_binary := {| executor_id := 2 |};
     contrib_type := PStr "default";
     _interactor_stdin_pipe := Some 3;
     _interactor_stdout_pipe := Some 6;
     _interactor_time_limit := None;
     _interactor_memory_limit := None;
     _interactor := None;
     _interactor_stderr := None |}.

(** A file list with a relative and an absolute path, and an argument
    template of the configuration's own. *)
Definition ex_handler_data_list : gmap string PyVal :=
  {[ "files" := PList [PStr "interactor.cpp"; PStr "/opt/testlib/testlib.h"];
     "lang" := PStr "CPP17";
     "memory_limit" := PInt 262144;
     "args_format_string" := PStr "{input_file} {answer_file}" ]}.

Definition ex_self1_list : BridgedInteractiveGrader :=
  {| base := {| judge := ex_judge; problem := ex_problem ex_handler_data_list; language := "PY3";
                source := []; binary := {| executor_id := 1 |};
                _current_proc := Some ex_current_proc |};
     handler_data := ex_handler_data_list;
     interactor_binary := {| executor_id := 2 |};
     contrib_type := PStr "default";
     _interactor_stdin_pipe := Some 3;
     _interactor_stdout_pipe := Some 6;
     _interactor_time_limit := None;
     _interactor_memory_limit := None;
     _interactor := None;
     _interactor_stderr := None |}.

(** ** The grader *)

Section Grader.

(** The registry of contrib modules (dmoj.contrib), a dictionary, and the
    judge's environment (dmoj.judgeenv), a configuration node. *)
Variable contrib_modules : gmap string ContribModule.
Variable env : gmap string PyVal.

(** Pure helpers of the standard library and of dmoj.utils. *)
Variable utf8text : bytes -> string -> string.
Variable shlex_quote : string -> string.
Variable shlex_split : string -> PyExn + list string.
Variable str_format : string -> list (string * string) -> PyExn + string.

(** Python's own: [float(n)] for an int, which raises OverflowError when the
    int is too large, and [repr(x)] of a float. *)
Variable float_of_int : Z -> PyExn + float.
Variable float_repr : float -> string.

(** [v + t] for a number [t]: a string, a list or a mapping raises. *)
Definition py_add (v : PyVal) (t : PyNum) : PyExn + PyNum :=
  match py_num v with
  | Some a => num_add float_of_int a t
  | None => inl (TypeError ("unsupported operand type(s) for +: " +:+ py_type_name v))
  end.

(** [v * t] for a number [t]: a string times an int is the string repeated;
    a string times a float, a list, a mapping or [None] raises. *)
Definition py_mul (v : PyVal) (t : PyNum) : PyExn + PyVal :=
  match v with
  | PStr s =>
      match t with
      | NInt n => inr (PStr (str_repeat s n))
      | NFloat _ => inl (TypeError "can't multiply sequence by non-int of type 'float'")
      end
  | _ =>
      match py_num v with
      | Some a =>
          match num_mul float_of_int a t with
          | inl e => inl e
          | inr r => inr (num_val r)
          end
      | None => inl (TypeError ("unsupported operand type(s) for *: " +:+ py_type_name v))
      end
  end.

(** [str(v)], as an f-string formats a value.  A wrapped list or mapping
    prints as an object; its text plays no part below. *)
Definition py_str (v : PyVal) : string :=
  match v with
  | PNone => "None"
  | PBool true => "True"
  | PBool false => "False"
  | PInt n => pretty n
  | PFloat x => float_repr x
  | PStr s => s
  | PList _ => "<ConfigNode>"
  | PDict _ => "<ConfigNode>"
  end.

(** [contrib_modules[key]]: the keys of the registry are strings. *)
Definition registry_lookup (key : PyVal) : option ContribModule :=
  match key with
  | PStr s => contrib_modules !! s
  | _ => None
  end.

Definition registry_getitem (key : PyVal) : Prog ContribModule :=
  match registry_lookup key with
  | Some m => Ret m
  | None => Raise (KeyError key)
  end.

Definition _generate_interactor_binary
    (self : StandardGrader) (self_handler_data : gmap string PyVal) : Prog BaseExecutor :=
  let files := cfg_getattr self_handler_data "files" in
  (* [filenames] is [None] while the local variable is unbound; an empty
     list is wrapped like an empty mapping, and [unwrap] gives no list *)
  filenames ←
    match files with
    | PStr s => Ret (Some [PStr s])
    | PList [] => Ret None
    | PList l => Ret (Some l)
    | PDict _ => Ret None
    | _ => Raise (AttributeError "unwrap")
    end;
  problem_root ←
    call (get_problem_root (problem_id (problem self)) (storage_namespace (problem self)));
  problem_root ←
    match problem_root with
    | Some root => Ret root
    | None => Raise AssertionError
    end;
  filenames ←
    match filenames with
    | Some l => lift (list_comprehension (os_path_join problem_root) l)
    | None => Raise (UnboundLocalError "filenames")
    end;
  let flags := cfg_get self_handler_data "flags" (PList []) in
  let unbuffered := cfg_get self_handler_data "unbuffered" (PBool true) in
  call (compile_with_auxiliary_files
          filenames flags (cfg_getattr self_handler_data "lang")
          (cfg_getattr self_handler_data "compiler_time_limit") unbuffered).

Definition __init__ (j : JudgeWorker) (p : Problem) (lang : string) (src : bytes)
  : Prog BridgedInteractiveGrader :=
  self ← call (StandardGrader_init j p lang src);
  let self_handler_data := interactive (problem_config (problem self)) in
  self_interactor_binary ←
    try_except (_generate_interactor_binary self self_handler_data)
      (fun e =>
         match e with
         | CompileError _ =>
             (* Rethrow as IE to differentiate from the user's submission
                failing to compile. *)
             Raise (InternalError "interactor failed compiling" (Some e))
         | _ => Raise e
         end);
  let self_contrib_type := cfg_get self_handler_data "type" (PStr "default") in
  match registry_lookup self_contrib_type with
  | None =>
      Raise (InternalError (py_str self_contrib_type +:+ " is not a valid contrib module") None)
  | Some _ =>
      Ret {| base := self;
             handler_data := self_handler_data;
             interactor_binary := self_interactor_binary;
             contrib_type := self_contrib_type;
             _interactor_stdin_pipe := None;
             _interactor_stdout_pipe := None;
             _interactor_time_limit := None;
             _interactor_memory_limit := None;
             _interactor := None;
             _interactor_stderr := None |}
  end.

Definition check_result (self : BridgedInteractiveGrader) (case : TestCase) (result : Result)
  : Prog CheckerOutput :=
  (* We parse the return code first in case the grader crashed, so it can
     raise the IE. *)
  m ← registry_getitem (contrib_type self);
  interactor ← self_attr "_interactor" (_interactor self);
  tl ← self_attr "_interactor_time_limit" (_interactor_time_limit self);
  ml ← self_attr "_interactor_memory_limit" (_interactor_memory_limit self);
  stderr0 ← self_attr "_interactor_stderr" (_interactor_stderr self);
  stderr1 ← self_attr "_interactor_stderr" (_interactor_stderr self);
  parsed_result ←
    call (parse_return_code m interactor (interactor_binary self) (points case) tl ml
            "" (utf8text stderr0 "replace") "interactor" stderr1);
  if py_truthy (PInt (result_flag result)) then
    Ret (CO_bool false)
  else if passed parsed_result
          && py_ne_str (py_or (cfg_getitem (case_config case) "checker") (PStr "standard"))
               "standard"
  then
    (* Run the custom checker iff a custom checker is specified and the
       interactor returns a passed verdict. *)
    call (StandardGrader_check_result (base self) case result)
  else
    Ret (CO_result parsed_result).

(** The methods that assign attributes of [self] return the new [self]; a
    method that raises returns none, and nothing below reads the attributes
    it had assigned before it raised. *)
Definition _launch_process (self : BridgedInteractiveGrader) (case : TestCase)
  : Prog BridgedInteractiveGrader :=
  pipe1 ← call os_pipe;
  let '(interactor_stdin_pipe, submission_stdout_pipe) := pipe1 in
  pipe2 ← call os_pipe;
  let '(submission_stdin_pipe, interactor_stdout_pipe) := pipe2 in
  let pb := problem (base self) in
  wall_time ← lift (py_mul (cfg_getattr (case_config case) "wall_time_factor") (time_limit pb));
  proc ←
    call (launch (binary (base self)) []
            {| kw_time := time_limit pb;
               kw_memory := PInt (memory_limit pb);
               kw_symlinks := Some (cfg_getattr (case_config case) "symlinks");
               kw_stdin := submission_stdin_pipe;
               kw_stdout := submission_stdout_pipe;
               kw_stderr_pipe := true;
               kw_wall_time := Some wall_time;
               kw_file_io := None |});
  call (os_close submission_stdin_pipe);;
  call (os_close submission_stdout_pipe);;
  Ret {| base :=
           {| judge := judge (base self);
              problem := pb;
              language := language (base self);
              source := source (base self);
              binary := binary (base self);
              _current_proc := Some proc |};
         handler_data := handler_data self;
         interactor_binary := interactor_binary self;
         contrib_type := contrib_type self;
         _interactor_stdin_pipe := Some interactor_stdin_pipe;
         _interactor_stdout_pipe := Some interactor_stdout_pipe;
         _interactor_time_limit := _interactor_time_limit self;
         _interactor_memory_limit := _interactor_memory_limit self;
         _interactor := _interactor self;
         _interactor_stderr := _interactor_stderr self |}.

(** [(self.handler_data.preprocessing_time or 2) + self.problem.time_limit] *)
Definition interactor_time_limit (self_handler_data : gmap string PyVal) (tl : PyNum)
  : PyExn + PyNum :=
  py_add (py_or (cfg_getattr self_handler_data "preprocessing_time") (PInt 2)) tl.

(** [self.handler_data.memory_limit or env['generator_memory_limit']] *)
Definition interactor_memory_limit (self_handler_data : gmap string PyVal) : PyVal :=
  py_or (cfg_getattr self_handler_data "memory_limit") (cfg_getitem env "generator_memory_limit").

Definition log_file_alphabet : string := "abcdefghijklmnopqrstuvwxyz0123456789_".

(** The session also assigns [result.proc_output]: the new [result] is
    returned with the new [self] and the submission's stderr. *)
Definition _interact_with_process
    (self : BridgedInteractiveGrader) (case : TestCase) (result : Result) (input : bytes)
  : Prog (BridgedInteractiveGrader * Result * bytes) :=
  current_proc ←
    match _current_proc (base self) with
    | Some p => Ret p
    | None => Raise AssertionError
    end;
  current_proc_stderr ←
    match proc_stderr current_proc with
    | Some s => Ret s
    | None => Raise AssertionError
    end;
  judge_output ← call (output_data case);
  (* Give TL + 2s by default, so we do not race (and incorrectly throw IE)
     if submission gets TLE *)
  tl ← lift (interactor_time_limit (handler_data self) (time_limit (problem (base self))));
  let ml := interactor_memory_limit (handler_data self) in
  args_format_string ←
    (let a := cfg_getattr (handler_data self) "args_format_string" in
     if py_truthy a then Ret a
     else
       m ← registry_getitem (contrib_type self);
       s ← call (get_interactor_args_format_string m);
       Ret (PStr s));
  with_mktemp input (fun input_file =>
  with_mktemp judge_output (fun answer_file =>
    chars ← call (random_choices log_file_alphabet 8);
    let interactor_log_file := String.concat "" chars in
    template ←
      match args_format_string with
      | PStr s => Ret s
      | _ => Raise (AttributeError "format")
      end;
    formatted ←
      lift (str_format template
              [("input_file", shlex_quote (file_name input_file));
               ("output_file", shlex_quote interactor_log_file);
               ("answer_file", shlex_quote (file_name answer_file))]);
    interactor_args ← lift (shlex_split formatted);
    stdin_pipe ← self_attr "_interactor_stdin_pipe" (_interactor_stdin_pipe self);
    stdout_pipe ← self_attr "_interactor_stdout_pipe" (_interactor_stdout_pipe self);
    interactor ←
      call (launch (interactor_binary self) interactor_args
              {| kw_time := tl;
                 kw_memory := ml;
                 kw_symlinks := None;
                 kw_stdin := stdin_pipe;
                 kw_stdout := stdout_pipe;
                 kw_stderr_pipe := true;
                 kw_wall_time := None;
                 kw_file_io := Some {[ "output" := PStr interactor_log_file ]} |});
    call (os_close stdin_pipe);;
    call (os_close stdout_pipe);;
    streams ← call (communicate interactor);
    let '(out, err) := streams in
    call (wait current_proc);;
    submission_stderr ← call (stderr_read current_proc);
    Ret ({| base := base self;
            handler_data := handler_data self;
            interactor_binary := interactor_binary self;
            contrib_type := contrib_type self;
            _interactor_stdin_pipe := _interactor_stdin_pipe self;
            _interactor_stdout_pipe := _interactor_stdout_pipe self;
            _interactor_time_limit := Some tl;
            _interactor_memory_limit := Some ml;
            _interactor := Some interactor;
            _interactor_stderr := Some err |},
         {| result_flag := result_flag result; proc_output := out |},
         submission_stderr))).

(** *** Notions the properties are stated with *)

(** The attributes [check_result] reads are in place: the type of the
    contrib module is registered (construction saw to it) and an interaction
    session has stored the interactor, its limits and its stderr. *)
Definition session_ready (self : BridgedInteractiveGrader)
    (m : ContribModule) (interactor : Proc) (tl : PyNum) (ml : PyVal) (err : bytes) : Prop :=
  registry_lookup (contrib_type self) = Some m
  /\ _interactor self = Some interactor
  /\ _interactor_time_limit self = Some tl
  /\ _interactor_memory_limit self = Some ml
  /\ _interactor_stderr self = Some err.

(** The call [check_result] makes to the contrib module. *)
Definition parse_call (self : BridgedInteractiveGrader) (case : TestCase)
    (m : ContribModule) (interactor : Proc) (tl : PyNum) (ml : PyVal) (err : bytes)
  : Op CheckerResult :=
  parse_return_code m interactor (interactor_binary self) (points case) tl ml
    "" (utf8text err "replace") "interactor" err.

(** The case names a secondary checker: a checker is configured and it is
    not 'standard'. *)
Definition spec_non_default_checker (case : TestCase) : bool :=
  let c := cfg_getitem (case_config case) "checker" in
  py_truthy c && py_ne_str c "standard".

(** The file-list field is a single path or a list of paths; the paths it
    names. *)
Definition as_path (v : PyVal) : option string :=
  match v with PStr f => Some f | _ => None end.

Definition spec_file_list (files : PyVal) : option (list string) :=
  match files with
  | PStr f => Some [f]
  | PList l => mapM as_path l
  | _ => None
  end.

(** The exceptions of the Python run time, as against the judge's own
    InternalError and CompileError. *)
Definition python_error (e : PyExn) : bool :=
  match e with
  | InternalError _ _ | CompileError _ => false
  | _ => true
  end.

Definition compile_call (e : Event) : bool :=
  match e with
  | Ev o _ =>
      match o with
      | compile_with_auxiliary_files _ _ _ _ _ => true
      | _ => false
      end
  end.

(** The value the constructor stores once the type of the contrib module is
    found in the registry. *)
Definition constructed (self : StandardGrader) (b : BaseExecutor) : BridgedInteractiveGrader :=
  {| base := self;
     handler_data := interactive (problem_config (problem self));
     interactor_binary := b;
     contrib_type := cfg_get (interactive (problem_config (problem self))) "type" (PStr "default");
     _interactor_stdin_pipe := None;
     _interactor_stdout_pipe := None;
     _interactor_time_limit := None;
     _interactor_memory_limit := None;
     _interactor := None;
     _interactor_stderr := None |}.

(** The steps of an interaction session, as they show in the log of calls:
    a launch with the pipe ends it was given, the closing of a pipe end,
    the draining of a process until it exits, the wait for a process. *)
Inductive Step : Type :=
| step_launch (b : BaseExecutor) (stdin stdout : fd)
| step_close (f : fd)
| step_communicate (p : Proc)
| step_wait (p : Proc).

Definition returned {R : Type} (r : PyExn + R) : bool :=
  match r with inr _ => true | inl _ => false end.

(** The step a call is, if any, and whether the call returned. *)
Definition session_step (e : Event) : option (Step * bool) :=
  match e with
  | Ev o r =>
      let ok := returned r in
      match o with
      | launch b _ kw => Some (step_launch b (kw_stdin kw) (kw_stdout kw), ok)
      | os_close f => Some (step_close f, ok)
      | communicate p => Some (step_communicate p, ok)
      | wait p => Some (step_wait p, ok)
      | _ => None
      end
  end.

(** The order of section 4.3: the interactor is launched on the mirrored
    pipe ends, the parent closes its two copies, the interactor is drained,
    the submission is waited on. *)
Definition session_order (self : BridgedInteractiveGrader)
    (stdin stdout : fd) (interactor current_proc : Proc) : list Step :=
  [step_launch (interactor_binary self) stdin stdout;
   step_close stdin;
   step_close stdout;
   step_communicate interactor;
   step_wait current_proc].

(** [steps] are the first steps of [order], one after the other, and a step
    that raised is the last one. *)
Fixpoint in_order (order : list Step) (steps : list (Step * bool)) : Prop :=
  match steps, order with
  | [], _ => True
  | (s, ok) :: rest, s' :: order' =>
      s = s' /\ if ok then in_order order' rest else rest = []
  | _ :: _, [] => False
  end.

(** The time limit a call hands to the executor, when the call is a launch. *)
Definition launch_time (e : Event) : option PyNum :=
  match e with
  | Ev o _ =>
      match o with
      | launch _ _ kw => Some (kw_time kw)
      | _ => None
      end
  end.

(** What holds of every run of a session.  With the submission process
    and the two pipe ends that [_launch_process] stored, the steps come in
    order, and a session that returns has made them all.  Every launch is
    given the computed time limit.  A session that returns has stored the
    interactor's limits and stderr and has kept the rest of [self]. *)
Definition session_post (self : BridgedInteractiveGrader) (result : Result)
    (current : option Proc) (pipe_in pipe_out : option fd)
    (tr : list Event) (out : PyExn + BridgedInteractiveGrader * Result * bytes) : Prop :=
  (forall current_proc stdin stdout,
      current = Some current_proc -> pipe_in = Some stdin -> pipe_out = Some stdout ->
      exists interactor,
        in_order (session_order self stdin stdout interactor current_proc)
          (omap session_step tr)
        /\ (forall g res data, out = inr (g, res, data) ->
              omap session_step tr
              = map (fun s => (s, true))
                  (session_order self stdin stdout interactor current_proc)
              /\ _interactor g = Some interactor))
  /\ Forall (fun e => forall t, launch_time e = Some t ->
                      interactor_time_limit (handler_data self)
                        (time_limit (problem (base self))) = inr t) tr
  /\ (forall g res data, out = inr (g, res, data) ->
        base g = base self
        /\ handler_data g = handler_data self
        /\ interactor_binary g = interactor_binary self
        /\ contrib_type g = contrib_type self
        /\ is_Some (_interactor g)
        /\ (exists tl, interactor_time_limit (handler_data self)
                         (time_limit (problem (base self))) = inr tl
                       /\ _interactor_time_limit g = Some tl)
        /\ _interactor_memory_limit g = Some (interactor_memory_limit (handler_data self))
        /\ is_Some (_interactor_stderr g)
        /\ result_flag res = result_flag result).

(** The time limit as the spec words it, with [key] the field that
    overrides it: the override when a number is configured there, else the
    configured preprocessing time, 2 by default, plus the limit of the
    submission. *)
Definition spec_time_limit_with_override (key : string)
    (self_handler_data : gmap string PyVal) (tl : PyNum) : PyExn + PyNum :=
  match self_handler_data !! key ≫= py_num with
  | Some override => inr override
  | None =>
      match self_handler_data !! "preprocessing_time" ≫= py_num with
      | Some n => num_add float_of_int n tl
      | None => num_add float_of_int (NInt 2) tl
      end
  end.

(** *** What a log shows *)

(** The temporary file a call created, the one a call removed. *)
Definition created_file (e : Event) : option TempFile :=
  match e with
  | Ev o r =>
      match o in Op R return PyExn + R -> option TempFile with
      | mktemp _ => fun r => match r with inr f => Some f | inl _ => None end
      | _ => fun _ => None
      end r
  end.

Definition removed_file (e : Event) : option TempFile :=
  match e with
  | Ev o _ =>
      match o with
      | mktemp_exit f => Some f
      | _ => None
      end
  end.

(** The pipe a call made, the descriptor a call closed. *)
Definition made_pipe (e : Event) : option (fd * fd) :=
  match e with
  | Ev o r =>
      match o in Op R return PyExn + R -> option (fd * fd) with
      | os_pipe => fun r => match r with inr ends => Some ends | inl _ => None end
      | _ => fun _ => None
      end r
  end.

Definition closed_fd (e : Event) : option fd :=
  match e with
  | Ev o _ =>
      match o with
      | os_close f => Some f
      | _ => None
      end
  end.

(** The call asks a contrib module for its default argument template. *)
Definition asks_args_format (e : Event) : bool :=
  match e with
  | Ev o _ =>
      match o with
      | get_interactor_args_format_string _ => true
      | _ => false
      end
  end.

(** The call runs the secondary checker. *)
Definition secondary_check_call (e : Event) : bool :=
  match e with
  | Ev o _ =>
      match o with
      | StandardGrader_check_result _ _ _ => true
      | _ => false
      end
  end.

(** The file names a call hands to the compiler. *)
Definition compiled_files (e : Event) : option (list string) :=
  match e with
  | Ev o _ =>
      match o with
      | compile_with_auxiliary_files filenames _ _ _ _ => Some filenames
      | _ => None
      end
  end.

(** A name as [os.path.join] leaves it for a configured path: an absolute
    path as it is, a relative one behind the root. *)
Definition resolved_under (root f name : string) : Prop :=
  if str_startswith f "/"%char then name = f
  else String.prefix root name = true.

(** The launch of a session: the interactor's binary, on the pipe ends the
    grader keeps, under the memory limit of the configuration, with its
    stderr captured, no symlinks, no wall time, and a log file as its only
    file output. *)
Definition session_launch (self : BridgedInteractiveGrader) (e : Event) : Prop :=
  match e with
  | Ev o _ =>
      match o with
      | launch b _ kw =>
          b = interactor_binary self
          /\ kw_memory kw = interactor_memory_limit (handler_data self)
          /\ Some (kw_stdin kw) = _interactor_stdin_pipe self
          /\ Some (kw_stdout kw) = _interactor_stdout_pipe self
          /\ kw_stderr_pipe kw = true
          /\ kw_symlinks kw = None
          /\ kw_wall_time kw = None
          /\ exists log, kw_file_io kw = Some {[ "output" := PStr log ]}
      | _ => True
      end
  end.

(** The pipe ends a launch binds to the standard input and output. *)
Definition launch_ends (e : Event) : option (fd * fd) :=
  match e with
  | Ev o _ =>
      match o with
      | launch _ _ kw => Some (kw_stdin kw, kw_stdout kw)
      | _ => None
      end
  end.

(** The call is a launch that returned a process. *)
Definition launch_answered (e : Event) : bool :=
  match e with
  | Ev o r =>
      match o with
      | launch _ _ _ => returned r
      | _ => false
      end
  end.

(** Nothing is closed unless a launch returned. *)
Definition closes_after_launch (tr : list Event) : Prop :=
  existsb launch_answered tr = false -> omap closed_fd tr = [].

(** The temporary files were removed, the last created first. *)
Definition temp_files_removed (tr : list Event) : Prop :=
  omap removed_file tr = rev (omap created_file tr).

Definition session_launches (self : BridgedInteractiveGrader) (tr : list Event) : Prop :=
  Forall (session_launch self) tr.

Definition never_asks_args_format (tr : list Event) : Prop :=
  existsb asks_args_format tr = false.

(** What the environment answered in a session that returned. *)
Record SessionRun : Type := {
  sr_judge_output : bytes;
  sr_template : string;
  sr_input_file : TempFile;
  sr_answer_file : TempFile;
  sr_chars : list string;
  sr_args : list string;
  sr_interactor : Proc;
  sr_out : bytes;
  sr_err : bytes;
  sr_exit : Z;
  sr_stderr : bytes
}.

(** The calls of a session that returned, from the creation of the first
    temporary file on. *)
Definition session_log (self : BridgedInteractiveGrader) (input : bytes)
    (current_proc : Proc) (stdin stdout : fd) (tl : PyNum) (r : SessionRun) : list Event :=
  [Ev (mktemp input) (inr (sr_input_file r));
   Ev (mktemp (sr_judge_output r)) (inr (sr_answer_file r));
   Ev (random_choices log_file_alphabet 8) (inr (sr_chars r));
   Ev (launch (interactor_binary self) (sr_args r)
         {| kw_time := tl;
            kw_memory := interactor_memory_limit (handler_data self);
            kw_symlinks := None;
            kw_stdin := stdin;
            kw_stdout := stdout;
            kw_stderr_pipe := true;
            kw_wall_time := None;
            kw_file_io := Some {[ "output" := PStr (String.concat "" (sr_chars r)) ]} |})
     (inr (sr_interactor r));
   Ev (os_close stdin) (inr tt);
   Ev (os_close stdout) (inr tt);
   Ev (communicate (sr_interactor r)) (inr (sr_out r, sr_err r));
   Ev (wait current_proc) (inr (sr_exit r));
   Ev (stderr_read current_proc) (inr (sr_stderr r));
   Ev (mktemp_exit (sr_answer_file r)) (inr tt);
   Ev (mktemp_exit (sr_input_file r)) (inr tt)].

(** The arguments of the interactor: the template, with the quoted names of
    the input file, the log file and the answer file, split into words. *)
Definition session_args (template : string) (r : SessionRun) : PyExn + list string :=
  match str_format template
          [("input_file", shlex_quote (file_name (sr_input_file r)));
           ("output_file", shlex_quote (String.concat "" (sr_chars r)));
           ("answer_file", shlex_quote (file_name (sr_answer_file r)))] with
  | inl e => inl e
  | inr formatted => shlex_split formatted
  end.

(** [self] after a session that returned. *)
Definition session_self (self : BridgedInteractiveGrader) (stdin stdout : fd) (tl : PyNum)
    (r : SessionRun) : BridgedInteractiveGrader :=
  {| base := base self;
     handler_data := handler_data self;
     interactor_binary := interactor_binary self;
     contrib_type := contrib_type self;
     _interactor_stdin_pipe := Some stdin;
     _interactor_stdout_pipe := Some stdout;
     _interactor_time_limit := Some tl;
     _interactor_memory_limit := Some (interactor_memory_limit (handler_data self));
     _interactor := Some (sr_interactor r);
     _interactor_stderr := Some (sr_err r) |}.

(** Where the template came from: the configuration, or else the contrib
    module, asked once. *)
Definition template_source (self : BridgedInteractiveGrader) (template : string)
    (asked : list Event) : Prop :=
  let a := cfg_getattr (handler_data self) "args_format_string" in
  (py_truthy a = true /\ a = PStr template /\ asked = [])
  \/ (py_truthy a = false
      /\ exists m, registry_lookup (contrib_type self) = Some m
                   /\ asked = [Ev (get_interactor_args_format_string m) (inr template)]).

(** A session that returned: the submission process and the pipe ends were
    in [self], the time limit was computed, and the log, the new [self], the
    new [result] and the value returned are those of the answers [r]. *)
Definition session_returned (self : BridgedInteractiveGrader) (case : TestCase)
    (result : Result) (input : bytes)
    (tr : list Event) (ret : BridgedInteractiveGrader * Result * bytes) : Prop :=
  exists current_proc stdin stdout tl r asked,
    _current_proc (base self) = Some current_proc
    /\ is_Some (proc_stderr current_proc)
    /\ _interactor_stdin_pipe self = Some stdin
    /\ _interactor_stdout_pipe self = Some stdout
    /\ interactor_time_limit (handler_data self) (time_limit (problem (base self))) = inr tl
    /\ template_source self (sr_template r) asked
    /\ session_args (sr_template r) r = inr (sr_args r)
    /\ tr = (Ev (output_data case) (inr (sr_judge_output r)) :: asked
             ++ session_log self input current_proc stdin stdout tl r)%list
    /\ ret = (session_self self stdin stdout tl r,
              {| result_flag := result_flag result; proc_output := sr_out r |},
              sr_stderr r).

(** The same, from the creation of the first temporary file on, with the
    template [a] in hand. *)
Definition session_rest_returned (self : BridgedInteractiveGrader) (result : Result)
    (input : bytes) (current_proc : Proc) (tl : PyNum) (judge_output : bytes) (a : PyVal)
    (tr : list Event) (ret : BridgedInteractiveGrader * Result * bytes) : Prop :=
  exists stdin stdout r,
    a = PStr (sr_template r)
    /\ tr = session_log self input current_proc stdin stdout tl r
    /\ ret = (session_self self stdin stdout tl r,
              {| result_flag := result_flag result; proc_output := sr_out r |},
              sr_stderr r)
    /\ sr_judge_output r = judge_output
    /\ _interactor_stdin_pipe self = Some stdin
    /\ _interactor_stdout_pipe self = Some stdout
    /\ session_args (sr_template r) r = inr (sr_args r).

(** A launch of the submission that returned: the two pipes made, the
    process, the wall time. *)
Definition launch_log (self : BridgedInteractiveGrader) (case : TestCase)
    (a b c d : fd) (proc : Proc) (wall_time : PyVal) : list Event :=
  [Ev os_pipe (inr (a, b));
   Ev os_pipe (inr (c, d));
   Ev (launch (binary (base self)) []
         {| kw_time := time_limit (problem (base self));
            kw_memory := PInt (memory_limit (problem (base self)));
            kw_symlinks := Some (cfg_getattr (case_config case) "symlinks");
            kw_stdin := c;
            kw_stdout := b;
            kw_stderr_pipe := true;
            kw_wall_time := Some wall_time;
            kw_file_io := None |})
     (inr proc);
   Ev (os_close c) (inr tt);
   Ev (os_close b) (inr tt)].

(** [self] after a launch of the submission that returned: the process and
    the interactor's two pipe ends are stored, the rest is as it was. *)
Definition launch_self (self : BridgedInteractiveGrader) (a d : fd) (proc : Proc)
  : BridgedInteractiveGrader :=
  {| base :=
       {| judge := judge (base self);
          problem := problem (base self);
          language := language (base self);
          source := source (base self);
          binary := binary (base self);
          _current_proc := Some proc |};
     handler_data := handler_data self;
     interactor_binary := interactor_binary self;
     contrib_type := contrib_type self;
     _interactor_stdin_pipe := Some a;
     _interactor_stdout_pipe := Some d;
     _interactor_time_limit := _interactor_time_limit self;
     _interactor_memory_limit := _interactor_memory_limit self;
     _interactor := _interactor self;
     _interactor_stderr := _interactor_stderr self |}.

Definition launch_returned (self : BridgedInteractiveGrader) (case : TestCase)
    (tr : list Event) (g : BridgedInteractiveGrader) : Prop :=
  exists a b c d proc wall_time,
    py_mul (cfg_getattr (case_config case) "wall_time_factor")
      (time_limit (problem (base self))) = inr wall_time
    /\ tr = launch_log self case a b c d proc wall_time
    /\ g = launch_self self a d proc.

(** A construction that returned: the file list was a path or a list of
    paths, the storage root was found, the compiler was called once on the
    joined paths, and the binary it made is the grader's. *)
Definition init_returned (j : JudgeWorker) (p : Problem) (lang : string) (src : bytes)
    (tr : list Event) (g : BridgedInteractiveGrader) : Prop :=
  exists self fs root b,
    let hd := interactive (problem_config (problem self)) in
    spec_file_list (cfg_getattr hd "files") = Some fs
    /\ is_Some (registry_lookup (cfg_get hd "type" (PStr "default")))
    /\ tr = [Ev (StandardGrader_init j p lang src) (inr self);
             Ev (get_problem_root (problem_id (problem self)) (storage_namespace (problem self)))
               (inr (Some root));
             Ev (compile_with_auxiliary_files (map (path_join root) fs)
                   (cfg_get hd "flags" (PList [])) (cfg_getattr hd "lang")
                   (cfg_getattr hd "compiler_time_limit") (cfg_get hd "unbuffered" (PBool true)))
               (inr b)]
    /\ g = constructed self b.

(** ** Properties *)

(** *** Runs *)

Lemma run_bind {W A B : Type} (h : Handler W) (p : Prog A) (f : A -> Prog B) (w : W) :
  run h (bind p f) w =
  match run h p w with
  | (tr, inl e, w1) => (tr, inl e, w1)
  | (tr, inr a, w1) =>
      match run h (f a) w1 with
      | (tr2, out, w2) => ((tr ++ tr2)%list, out, w2)
      end
  end.
Proof.
  revert w. induction p as [a | e | R o k IH]; intros w; simpl.
  - destruct (run h (f a) w) as [[tr2 out] w2]. reflexivity.
  - reflexivity.
  - destruct (h R o w) as [r w1]. rewrite IH.
    destruct (run h (k r) w1) as [[tr [e | a]] w2]; [reflexivity |].
    destruct (run h (f a) w2) as [[tr2 out] w3]. reflexivity.
Qed.

Lemma run_call {W R : Type} (h : Handler W) (o : Op R) (w : W) :
  run h (call o) w = ([Ev o (h R o w).1], (h R o w).1, (h R o w).2).
Proof.
  unfold call. simpl. destruct (h R o w) as [[e | v] w1]; reflexivity.
Qed.

Lemma all_runs_sound {W A : Type} (h : Handler W) (p : Prog A) Q (w : W) :
  all_runs p Q -> Q (trace_of h p w) (outcome_of h p w).
Proof.
  unfold trace_of, outcome_of. revert Q w.
  induction p as [a | e | R o k IH]; intros Q w HQ; simpl in *; try exact HQ.
  destruct (h R o w) as [r w1]. specialize (IH r _ w1 (HQ r)).
  destruct (run h (k r) w1) as [[tr out] w2]. exact IH.
Qed.

Lemma all_runs_mono {A : Type} (p : Prog A) (Q Q' : list Event -> PyExn + A -> Prop) :
  (forall tr out, Q tr out -> Q' tr out) -> all_runs p Q -> all_runs p Q'.
Proof.
  revert Q Q'. induction p as [a | e | R o k IH]; intros Q Q' HQ Hp; simpl in *; auto.
  intros r. eapply IH; [| apply Hp]. intros tr out. apply HQ.
Qed.

Lemma all_runs_bind {A B : Type} (p : Prog A) (f : A -> Prog B) Q :
  all_runs p (fun tr out =>
                match out with
                | inl e => Q tr (inl e)
                | inr a => all_runs (f a) (fun tr2 out2 => Q (tr ++ tr2)%list out2)
                end) ->
  all_runs (bind p f) Q.
Proof.
  revert Q. induction p as [a | e | R o k IH]; intros Q Hp; simpl in *.
  - eapply all_runs_mono; [| apply Hp]. intros tr out HQ. exact HQ.
  - exact Hp.
  - intros r. apply IH. eapply all_runs_mono; [| apply Hp].
    intros tr [e | a] HQ; exact HQ.
Qed.

Lemma all_runs_try_except {A : Type} (p : Prog A) (f : PyExn -> Prog A) Q :
  all_runs p (fun tr out =>
                match out with
                | inr a => Q tr (inr a)
                | inl e => all_runs (f e) (fun tr2 out2 => Q (tr ++ tr2)%list out2)
                end) ->
  all_runs (try_except p f) Q.
Proof.
  revert Q. induction p as [a | e | R o k IH]; intros Q Hp; simpl in *.
  - exact Hp.
  - eapply all_runs_mono; [| apply Hp]. intros tr out HQ. exact HQ.
  - intros r. apply IH. eapply all_runs_mono; [| apply Hp].
    intros tr [e | a] HQ; exact HQ.
Qed.

(** The one shape every run of [check_result] has, once the session is in
    place: the contrib module is asked first; what follows depends on its
    answer, on the result flag and on the checker of the case. *)
Lemma run_check_result {W : Type} (h : Handler W) (w : W)
    self case result m interactor tl ml err :
  session_ready self m interactor tl ml err ->
  run h (check_result self case result) w =
  let o := parse_call self case m interactor tl ml err in
  match h _ o w with
  | (inl e, w1) => ([Ev o (inl e)], inl e, w1)
  | (inr parsed_result, w1) =>
      if negb (result_flag result =? 0) then
        ([Ev o (inr parsed_result)], inr (CO_bool false), w1)
      else if passed parsed_result
              && py_ne_str (py_or (cfg_getitem (case_config case) "checker") (PStr "standard"))
                   "standard"
      then
        let o2 := StandardGrader_check_result (base self) case result in
        ([Ev o (inr parsed_result); Ev o2 (h _ o2 w1).1], (h _ o2 w1).1, (h _ o2 w1).2)
      else ([Ev o (inr parsed_result)], inr (CO_result parsed_result), w1)
  end.
Proof.
  intros (Hm & Hi & Htl & Hml & Herr).
  unfold check_result, registry_getitem, parse_call.
  rewrite Hm, Hi, Htl, Hml, Herr. simpl.
  destruct (h _ _ w) as [[e | pr] w1]; simpl; [reflexivity |].
  destruct (negb (result_flag result =? 0)); simpl; [reflexivity |].
  destruct (passed pr && _); simpl; [| reflexivity].
  destruct (h _ _ w1) as [[e | v] w2]; reflexivity.
Qed.

(** The code's test of the checker is the spec's. *)
Lemma checker_test_spec (case : TestCase) :
  py_ne_str (py_or (cfg_getitem (case_config case) "checker") (PStr "standard")) "standard"
  = spec_non_default_checker case.
Proof.
  unfold spec_non_default_checker, py_or.
  destruct (py_truthy (cfg_getitem (case_config case) "checker")); reflexivity.
Qed.

(** *** The verdict *)

(** C1.  When the result flag of the submission is nonzero and the contrib
    module has parsed the interactor's exit into a verdict, whatever that
    verdict is, [check_result] returns a failing verdict. *)
Theorem check_result_fails_on_result_flag {W : Type} (h : Handler W) (w w1 : W)
    self case result m interactor tl ml err parsed_result :
  session_ready self m interactor tl ml err ->
  h _ (parse_call self case m interactor tl ml err) w = (inr parsed_result, w1) ->
  result_flag result <> 0 ->
  exists verdict,
    outcome_of h (check_result self case result) w = inr verdict
    /\ verdict_passed verdict = false.
Proof.
  intros Hready Hparse Hflag.
  exists (CO_bool false). split; [| reflexivity].
  unfold outcome_of. rewrite (run_check_result h w _ _ _ _ _ _ _ _ Hready).
  cbv zeta. rewrite Hparse.
  destruct (Z.eqb_spec (result_flag result) 0) as [Heq | _]; [contradiction | reflexivity].
Qed.

(** C9.  When the result flag is nonzero, what [check_result] returns is the
    bare boolean [False], which is no structured result: the run consists of
    the one call to the contrib module, and the points and feedback that
    call parsed appear nowhere in the value returned. *)
Theorem check_result_flag_returns_bare_False {W : Type} (h : Handler W) (w w1 : W)
    self case result m interactor tl ml err parsed_result :
  session_ready self m interactor tl ml err ->
  h _ (parse_call self case m interactor tl ml err) w = (inr parsed_result, w1) ->
  result_flag result <> 0 ->
  run h (check_result self case result) w
  = ([Ev (parse_call self case m interactor tl ml err) (inr parsed_result)],
     inr (CO_bool false), w1)
  /\ (forall r : CheckerResult, CO_bool false <> CO_result r).
Proof.
  intros Hready Hparse Hflag. split; [| discriminate].
  rewrite (run_check_result h w _ _ _ _ _ _ _ _ Hready).
  cbv zeta. rewrite Hparse.
  destruct (Z.eqb_spec (result_flag result) 0) as [Heq | _]; [contradiction | reflexivity].
Qed.

(** C2.  When no result flag is set and the contrib module has parsed a
    verdict: if that verdict is passed and the case configures a checker
    other than 'standard', [check_result] returns what the superclass's
    [check_result] returns for the case and the result; otherwise it returns
    the parsed verdict itself. *)
Theorem check_result_defers_to_secondary_checker {W : Type} (h : Handler W) (w w1 : W)
    self case result m interactor tl ml err parsed_result :
  session_ready self m interactor tl ml err ->
  h _ (parse_call self case m interactor tl ml err) w = (inr parsed_result, w1) ->
  result_flag result = 0 ->
  outcome_of h (check_result self case result) w =
  if passed parsed_result && spec_non_default_checker case
  then (h _ (StandardGrader_check_result (base self) case result) w1).1
  else inr (CO_result parsed_result).
Proof.
  intros Hready Hparse Hflag.
  unfold outcome_of. rewrite (run_check_result h w _ _ _ _ _ _ _ _ Hready).
  cbv zeta. rewrite Hparse, Hflag, checker_test_spec. simpl.
  destruct (passed parsed_result && spec_non_default_checker case); reflexivity.
Qed.

(** C4.  In every run of [check_result], whatever the result flag of the
    submission, the first call is the contrib module's [parse_return_code]
    on the interactor; and when that call raises, [check_result] raises the
    same exception, having done nothing else. *)
Theorem check_result_parses_return_code_first {W : Type} (h : Handler W) (w : W)
    self case result m interactor tl ml err :
  session_ready self m interactor tl ml err ->
  let o := parse_call self case m interactor tl ml err in
  (exists rest, trace_of h (check_result self case result) w = Ev o (h _ o w).1 :: rest)
  /\ (forall e, (h _ o w).1 = inl e ->
       run h (check_result self case result) w = ([Ev o (inl e)], inl e, (h _ o w).2)).
Proof.
  intros Hready o. unfold trace_of.
  rewrite (run_check_result h w _ _ _ _ _ _ _ _ Hready). cbv zeta. fold o.
  destruct (h _ o w) as [[e | pr] w1]; simpl.
  - split; [eexists; reflexivity |]. intros e' [= <-]. reflexivity.
  - split; [| discriminate].
    destruct (negb (result_flag result =? 0)); [eexists; reflexivity |].
    destruct (passed pr && _); eexists; reflexivity.
Qed.

(** *** Construction *)

Lemma run_try_except {W A : Type} (h : Handler W) (p : Prog A) (f : PyExn -> Prog A) (w : W) :
  run h (try_except p f) w =
  match run h p w with
  | (tr, inr a, w1) => (tr, inr a, w1)
  | (tr, inl e, w1) =>
      match run h (f e) w1 with
      | (tr2, out, w2) => ((tr ++ tr2)%list, out, w2)
      end
  end.
Proof.
  revert w. induction p as [a | e | R o k IH]; intros w; simpl.
  - reflexivity.
  - destruct (run h (f e) w) as [[tr2 out] w2]. reflexivity.
  - destruct (h R o w) as [r w1]. rewrite IH.
    destruct (run h (k r) w1) as [[tr [e | a]] w2]; [| reflexivity].
    destruct (run h (f e) w2) as [[tr2 out] w3]. reflexivity.
Qed.

(** Every run of the constructor: the superclass constructor, then the
    generation of the interactor binary with its compile error rethrown,
    then the look-up of the type in the registry. *)
Lemma run_init {W : Type} (h : Handler W) (w : W) j p lang src :
  run h (__init__ j p lang src) w =
  let o := StandardGrader_init j p lang src in
  match h _ o w with
  | (inl e, w1) => ([Ev o (inl e)], inl e, w1)
  | (inr self, w1) =>
      let hd := interactive (problem_config (problem self)) in
      match run h (_generate_interactor_binary self hd) w1 with
      | (tr, inl (CompileError msg), w2) =>
          (Ev o (inr self) :: tr,
           inl (InternalError "interactor failed compiling" (Some (CompileError msg))), w2)
      | (tr, inl e, w2) => (Ev o (inr self) :: tr, inl e, w2)
      | (tr, inr b, w2) =>
          let ty := cfg_get hd "type" (PStr "default") in
          match registry_lookup ty with
          | None =>
              (Ev o (inr self) :: tr,
               inl (InternalError (py_str ty +:+ " is not a valid contrib module") None), w2)
          | Some _ => (Ev o (inr self) :: tr, inr (constructed self b), w2)
          end
      end
  end.
Proof.
  unfold __init__. cbv zeta. simpl.
  destruct (h _ _ w) as [[e | self] w1]; simpl; [reflexivity |].
  change (mbind ?f ?p) with (bind p f).
  rewrite run_bind, run_try_except.
  destruct (run h (_generate_interactor_binary self _) w1) as [[tr [e | b]] w2].
  - destruct e; simpl; rewrite app_nil_r; reflexivity.
  - destruct (registry_lookup _); simpl; rewrite app_nil_r; reflexivity.
Qed.

(** The generation of the interactor binary calls nothing but the look-up of
    the storage root and the compiler. *)
Lemma generate_interactor_binary_calls self hd :
  all_runs (_generate_interactor_binary self hd)
    (fun tr _ => forallb construction_call tr = true).
Proof.
  unfold _generate_interactor_binary.
  destruct (cfg_getattr hd "files") as [| | | | f | l | d]; simpl; try reflexivity.
  - intros [e | [root |]]; simpl; try reflexivity.
    intros [e | b]; reflexivity.
  - destruct l as [| v l]; simpl; [intros [e | [root |]]; reflexivity |].
    intros [e | [root |]]; simpl; try reflexivity.
    destruct (os_path_join root v); simpl; [reflexivity |].
    destruct (list_comprehension _ l); simpl; [reflexivity |].
    intros [e | b]; reflexivity.
  - intros [e | [root |]]; reflexivity.
Qed.

Lemma init_calls j p lang src :
  all_runs (__init__ j p lang src) (fun tr _ => forallb construction_call tr = true).
Proof.
  unfold __init__. simpl. intros [e | self]; simpl; [reflexivity |].
  change (mbind ?f ?p) with (bind p f).
  apply all_runs_bind, all_runs_try_except.
  eapply all_runs_mono; [| apply generate_interactor_binary_calls].
  intros tr [e | b] Htr; simpl in *.
  - destruct e; simpl; rewrite app_nil_r; exact Htr.
  - destruct (registry_lookup _); simpl; rewrite app_nil_r; exact Htr.
Qed.

(** Construction never yields a grader whose contrib-module type is missing
    from the registry. *)
Lemma init_contrib_type_registered {W : Type} (h : Handler W) (w : W) j p lang src g :
  outcome_of h (__init__ j p lang src) w = inr g ->
  is_Some (registry_lookup (contrib_type g)).
Proof.
  unfold outcome_of. rewrite run_init. cbv zeta.
  destruct (h _ _ w) as [[e | self] w1]; simpl; [discriminate |].
  destruct (run h _ w1) as [[tr [e | b]] w2]; [destruct e; discriminate |].
  destruct (registry_lookup _) as [m |] eqn:Hm; simpl; [| discriminate].
  intros [= <-]. simpl. rewrite Hm. eexists; reflexivity.
Qed.

(** C5.  Construction never yields a grader whose contrib-module type is
    missing from the registry, and it makes none but construction-time
    calls.  Once the superclass constructor and the generation of the
    interactor binary have returned: if the type is not a key of the
    registry the constructor raises InternalError, and if it is a key the
    constructor returns the grader. *)
Theorem init_rejects_unknown_contrib_type {W : Type} (h : Handler W) (w : W) j p lang src :
  (forall g, outcome_of h (__init__ j p lang src) w = inr g ->
             is_Some (registry_lookup (contrib_type g)))
  /\ forallb construction_call (trace_of h (__init__ j p lang src) w) = true
  /\ (forall self w1 tr b w2,
        h _ (StandardGrader_init j p lang src) w = (inr self, w1) ->
        run h (_generate_interactor_binary self (interactive (problem_config (problem self)))) w1
        = (tr, inr b, w2) ->
        let ty := cfg_get (interactive (problem_config (problem self))) "type" (PStr "default") in
        (registry_lookup ty = None ->
         run h (__init__ j p lang src) w
         = (Ev (StandardGrader_init j p lang src) (inr self) :: tr,
            inl (InternalError (py_str ty +:+ " is not a valid contrib module") None), w2))
        /\ (is_Some (registry_lookup ty) ->
            run h (__init__ j p lang src) w
            = (Ev (StandardGrader_init j p lang src) (inr self) :: tr,
               inr (constructed self b), w2))).
Proof.
  split; [| split].
  - intros g. apply init_contrib_type_registered.
  - apply (all_runs_sound h (__init__ j p lang src) _ w (init_calls j p lang src)).
  - intros self w1 tr b w2 Hsuper Hgen ty. rewrite run_init. cbv zeta.
    rewrite Hsuper, Hgen. fold ty. split.
    + intros ->. reflexivity.
    + intros [m ->]. reflexivity.
Qed.

(** C10.  When the handler configuration has no [type] field, the type the
    constructor selects is 'default'; once the superclass constructor and
    the generation of the interactor binary have returned, the constructor
    returns a grader exactly when 'default' is a key of the registry, and
    that grader's contrib type is 'default'. *)
Theorem init_defaults_contrib_type {W : Type} (h : Handler W) (w w1 w2 : W)
    j p lang src self tr b :
  h _ (StandardGrader_init j p lang src) w = (inr self, w1) ->
  run h (_generate_interactor_binary self (interactive (problem_config (problem self)))) w1
  = (tr, inr b, w2) ->
  interactive (problem_config (problem self)) !! "type" = None ->
  cfg_get (interactive (problem_config (problem self))) "type" (PStr "default") = PStr "default"
  /\ ((exists g, outcome_of h (__init__ j p lang src) w = inr g)
      <-> "default" ∈ dom contrib_modules)
  /\ (forall g, outcome_of h (__init__ j p lang src) w = inr g ->
                contrib_type g = PStr "default").
Proof.
  intros Hsuper Hgen Htype.
  assert (Hty : cfg_get (interactive (problem_config (problem self))) "type" (PStr "default")
                = PStr "default") by (unfold cfg_get; rewrite Htype; reflexivity).
  unfold outcome_of. rewrite run_init. cbv zeta. rewrite Hsuper, Hgen, Hty. simpl.
  rewrite elem_of_dom.
  split; [reflexivity |].
  destruct (contrib_modules !! "default") as [m |] eqn:Hm; simpl.
  - split; [split; [intros _; eexists; reflexivity | intros _; eexists; reflexivity] |].
    intros g [= <-]. exact Hty.
  - split; [split; [intros [g [=]] | intros [m [=]]] |]. intros g [=].
Qed.

(** C6.  When the generation of the interactor binary raises a compile
    error, the constructor raises InternalError 'interactor failed
    compiling' with the compile error as its cause; and once the superclass
    constructor has returned, no compile error leaves the constructor. *)
Theorem init_rethrows_compile_error_as_internal {W : Type} (h : Handler W) (w w1 : W)
    j p lang src self :
  h _ (StandardGrader_init j p lang src) w = (inr self, w1) ->
  (forall tr msg w2,
      run h (_generate_interactor_binary self (interactive (problem_config (problem self)))) w1
      = (tr, inl (CompileError msg), w2) ->
      run h (__init__ j p lang src) w
      = (Ev (StandardGrader_init j p lang src) (inr self) :: tr,
         inl (InternalError "interactor failed compiling" (Some (CompileError msg))), w2))
  /\ (forall msg, outcome_of h (__init__ j p lang src) w <> inl (CompileError msg)).
Proof.
  intros Hsuper. split.
  - intros tr msg w2 Hgen. rewrite run_init. cbv zeta. rewrite Hsuper, Hgen. reflexivity.
  - intros msg. unfold outcome_of. rewrite run_init. cbv zeta. rewrite Hsuper.
    destruct (run h _ w1) as [[tr [e | b]] w2].
    + destruct e; discriminate.
    + destruct (registry_lookup _); discriminate.
Qed.

(** *** The interaction session *)

Arguments session_post : simpl never.
Arguments interactor_time_limit : simpl never.
Arguments interactor_memory_limit : simpl never.

(** The end of a path through the session: the log is known. *)
Ltac session_leaf :=
  unfold session_post; simpl;
  solve [ split;
          [ intros ? ? ? Hcp Hsi Hso; simplify_eq;
            match goal with
            | p : Proc |- _ =>
                exists p; simpl;
                solve [ split;
                        [ repeat split
                        | intros ? ? ? Heq; simplify_eq; split; reflexivity ] ]
            end
          | split;
            [ repeat constructor;
              intros ? Ht; simpl in Ht; simplify_eq; assumption
            | intros ? ? ? Heq; simplify_eq; simpl;
              repeat split; first [ reflexivity | eauto ] ] ] ].

(** The rest of a path: the temporary files are removed, whatever happens. *)
Ltac session_cleanup :=
  repeat (simpl;
          first [ session_leaf
                | intros [? | ?];
                  try match goal with p : (bytes * bytes)%type |- _ => destruct p end ]).

Lemma session_post_neutral self result current pipe_in pipe_out e tr out :
  session_step e = None -> launch_time e = None ->
  session_post self result current pipe_in pipe_out tr out ->
  session_post self result current pipe_in pipe_out (e :: tr) out.
Proof.
  intros Hstep Htime (Horder & Htl & Hret).
  split; [| split; [| exact Hret]].
  - intros cp si so Hcp Hsi Hso. simpl. rewrite Hstep. exact (Horder cp si so Hcp Hsi Hso).
  - constructor; [| exact Htl]. intros t. rewrite Htime. discriminate.
Qed.

(** Every run of a session, whatever the environment answers. *)
Lemma interact_with_process_runs self case result input :
  all_runs (_interact_with_process self case result input)
    (session_post self result (_current_proc (base self))
       (_interactor_stdin_pipe self) (_interactor_stdout_pipe self)).
Proof.
  unfold _interact_with_process.
  destruct (_current_proc (base self)) as [current_proc |]; simpl; [| session_leaf].
  destruct (proc_stderr current_proc) as [err0 |]; simpl; [| session_leaf].
  intros [e | judge_output]; simpl; [session_leaf |].
  destruct (interactor_time_limit _ _) as [e | tl] eqn:Htl; simpl; [session_leaf |].
  change (mbind ?f ?p) with (bind p f).
  match goal with |- all_runs (bind _ ?f) _ => set (rest := f) end.
  assert (Hrest : forall a,
             all_runs (rest a)
               (session_post self result (Some current_proc)
                  (_interactor_stdin_pipe self) (_interactor_stdout_pipe self))).
  { intros a. subst rest. simpl.
    intros [e | input_file]; simpl; [session_leaf |].
    intros [e | answer_file]; simpl; [session_cleanup |].
    intros [e | chars]; simpl; [session_cleanup |].
    destruct a; simpl; try solve [session_cleanup].
    destruct (str_format _ _) as [e | formatted]; simpl; [session_cleanup |].
    destruct (shlex_split _) as [e | interactor_args]; simpl; [session_cleanup |].
    destruct (_interactor_stdin_pipe self) as [stdin |]; simpl; [| session_cleanup].
    destruct (_interactor_stdout_pipe self) as [stdout |]; simpl; [| session_cleanup].
    intros [e | interactor]; simpl; [session_cleanup |].
    session_cleanup. }
  clearbody rest. apply all_runs_bind.
  destruct (py_truthy _); simpl.
  - eapply all_runs_mono; [| apply Hrest].
    intros tr out Hpost. apply session_post_neutral; [reflexivity.. | exact Hpost].
  - unfold registry_getitem. destruct (registry_lookup _) as [m |]; simpl; [| session_leaf].
    intros [e | s]; simpl; [session_leaf |].
    eapply all_runs_mono; [| apply Hrest].
    intros tr out Hpost. do 2 (apply session_post_neutral; [reflexivity.. |]). exact Hpost.
Qed.




(** C3 (amended).  The time limit of the interactor is the configured
    preprocessing time plus the time limit of the submission, with Python's
    [+] on numbers: the exact sum of two ints, the binary64 sum when one of
    them is a float.  In place of the preprocessing time stands 2 when none
    is configured or the configured value is false (a zero, an empty string,
    list or mapping); a configured value that is true and no number raises
    TypeError.  No other field of the configuration changes the limit; it is
    the time every launch of a session hands to the executor, and the limit
    a session that returns has stored. *)
Theorem interactor_time_limit_is_preprocessing_plus_limit {W : Type} (h : Handler W) (w : W)
    self case result input :
  let hd := handler_data self in
  let T := time_limit (problem (base self)) in
  let configured := cfg_getattr hd "preprocessing_time" in
  (hd !! "preprocessing_time" = None -> interactor_time_limit hd T = num_add float_of_int 2 T)
  /\ (py_truthy configured = false -> interactor_time_limit hd T = num_add float_of_int 2 T)
  /\ (forall p, py_truthy configured = true -> py_num configured = Some p ->
                interactor_time_limit hd T = num_add float_of_int p T)
  /\ (py_truthy configured = true -> py_num configured = None ->
      exists msg, interactor_time_limit hd T = inl (TypeError msg))
  /\ (forall m n : Z, num_add float_of_int m n = inr (NInt (m + n)))
  /\ (forall x y : float,
        num_add float_of_int (NFloat x) (NFloat y) = inr (NFloat (PrimFloat.add x y)))
  /\ (forall (m : Z) (y x : float), float_of_int m = inr x ->
        num_add float_of_int m (NFloat y) = inr (NFloat (PrimFloat.add x y))
        /\ num_add float_of_int (NFloat y) m = inr (NFloat (PrimFloat.add y x)))
  /\ (forall hd', hd' !! "preprocessing_time" = hd !! "preprocessing_time" ->
                  interactor_time_limit hd' T = interactor_time_limit hd T)
  /\ (forall e t, e ∈ trace_of h (_interact_with_process self case result input) w ->
                  launch_time e = Some t -> interactor_time_limit hd T = inr t)
  /\ (forall g res data,
        outcome_of h (_interact_with_process self case result input) w = inr (g, res, data) ->
        exists t, interactor_time_limit hd T = inr t /\ _interactor_time_limit g = Some t).
Proof.
  intros hd T configured.
  destruct (all_runs_sound h _ _ w (interact_with_process_runs self case result input))
    as (_ & Hlaunch & Hret).
  fold hd T in Hlaunch, Hret.
  unfold interactor_time_limit. fold configured. unfold py_add, py_or.
  split; [subst configured; unfold cfg_getattr, cfg_getitem; intros ->; reflexivity |].
  split; [intros ->; reflexivity |].
  split; [intros p -> ->; reflexivity |].
  split; [intros -> ->; eexists; reflexivity |].
  split; [reflexivity |].
  split; [reflexivity |].
  split; [intros m y x Hx; unfold num_add, num_op; simpl; rewrite Hx; split; reflexivity |].
  split; [subst configured; unfold cfg_getattr, cfg_getitem; intros hd' ->; reflexivity |].
  split.
  - intros e t He. exact (proj1 (Forall_forall _ _) Hlaunch e He t).
  - intros g res data Hout.
    destruct (Hret g res data Hout) as (_ & _ & _ & _ & _ & Htl & _). exact Htl.
Qed.

(** *** The interactor binary *)

Lemma list_comprehension_join root l fs :
  mapM as_path l = Some fs ->
  list_comprehension (os_path_join root) l = inr (map (path_join root) fs).
Proof.
  intros H%mapM_Some_1. induction H as [| v f l fs Hv _ IH]; simpl; [reflexivity |].
  destruct v; try discriminate Hv. injection Hv as ->. simpl. rewrite IH. reflexivity.
Qed.

Lemma list_comprehension_not_paths root l :
  mapM as_path l = None ->
  exists msg, list_comprehension (os_path_join root) l = inl (TypeError msg).
Proof.
  intros H%mapM_None_1. induction H as [v l Hv | v l _ IH]; simpl.
  - destruct v; try discriminate Hv; simpl; eexists; reflexivity.
  - destruct (os_path_join root v) as [e | y] eqn:Hj.
    + destruct v; try discriminate Hj; simpl in Hj; injection Hj as <-; eexists; reflexivity.
    + destruct IH as [msg ->]. eexists; reflexivity.
Qed.

(** A file list of the right shape that names a path: once the storage
    root is found, the compiler is called on the paths joined to the root,
    with the flags, the language, the compiler time limit and the buffering
    mode of the configuration, and what it returns or raises is the
    outcome. *)
Lemma generate_compiles_resolved_paths {W : Type} (h : Handler W) (w w1 : W)
    self hd fs root :
  spec_file_list (cfg_getattr hd "files") = Some fs ->
  fs <> [] ->
  h _ (get_problem_root (problem_id (problem self)) (storage_namespace (problem self))) w
  = (inr (Some root), w1) ->
  let o1 := get_problem_root (problem_id (problem self)) (storage_namespace (problem self)) in
  let o2 := compile_with_auxiliary_files (map (path_join root) fs)
              (cfg_get hd "flags" (PList [])) (cfg_getattr hd "lang")
              (cfg_getattr hd "compiler_time_limit") (cfg_get hd "unbuffered" (PBool true)) in
  run h (_generate_interactor_binary self hd) w
  = ([Ev o1 (inr (Some root)); Ev o2 (h _ o2 w1).1], (h _ o2 w1).1, (h _ o2 w1).2).
Proof.
  intros Hfiles Hfs Hroot o1 o2. subst o1 o2. unfold _generate_interactor_binary.
  destruct (cfg_getattr hd "files") as [| | | | f | l | d]; try discriminate Hfiles; simpl in *.
  - injection Hfiles as <-. rewrite Hroot. simpl.
    destruct (h _ _ w1) as [[e | b] w2]; reflexivity.
  - destruct l as [| v l]; [injection Hfiles as <-; contradiction |].
    simpl. rewrite Hroot. simpl.
    pose proof (list_comprehension_join root (v :: l) fs Hfiles) as Hjoin.
    simpl in Hjoin. rewrite Hjoin. simpl.
    destruct (h _ _ w1) as [[e | b] w2]; reflexivity.
Qed.

(** A file list of another shape: the compiler is never called and no
    binary is made; once the storage root is found, what is raised is an
    exception of the Python run time: AttributeError for a scalar that is
    no string, UnboundLocalError for a mapping, TypeError for a list with
    an entry that is no string. *)
Lemma generate_malformed_file_list {W : Type} (h : Handler W) (w : W) self hd :
  spec_file_list (cfg_getattr hd "files") = None ->
  existsb compile_call (trace_of h (_generate_interactor_binary self hd) w) = false
  /\ (exists e, outcome_of h (_generate_interactor_binary self hd) w = inl e)
  /\ (forall root w1,
        h _ (get_problem_root (problem_id (problem self)) (storage_namespace (problem self))) w
        = (inr (Some root), w1) ->
        exists e, outcome_of h (_generate_interactor_binary self hd) w = inl e
                  /\ python_error e = true)
  /\ (forall d root w1,
        cfg_getattr hd "files" = PDict d ->
        h _ (get_problem_root (problem_id (problem self)) (storage_namespace (problem self))) w
        = (inr (Some root), w1) ->
        outcome_of h (_generate_interactor_binary self hd) w
        = inl (UnboundLocalError "filenames")).
Proof.
  intros Hfiles. unfold trace_of, outcome_of, _generate_interactor_binary.
  destruct (cfg_getattr hd "files") as [| b | n | x | f | l | d]; try discriminate Hfiles;
    simpl in *.
  1-4: (split; [reflexivity |]; split; [eexists; reflexivity |];
        split; [intros; eexists; split; reflexivity | intros; discriminate]).
  - destruct l as [| v l]; [discriminate Hfiles |]. simpl.
    destruct (h _ _ w) as [[e | [root |]] w1]; simpl.
    1,3: (split; [reflexivity |]; split; [eexists; reflexivity |];
          split; intros; discriminate).
    destruct (list_comprehension_not_paths root (v :: l) Hfiles) as [msg Hmsg].
    simpl in Hmsg. rewrite Hmsg. simpl.
    split; [reflexivity |]. split; [eexists; reflexivity |].
    split; [| intros; discriminate].
    intros root' w1' _. eexists; split; reflexivity.
  - destruct (h _ _ w) as [[e | [root |]] w1]; simpl.
    1,3: (split; [reflexivity |]; split; [eexists; reflexivity |];
          split; intros; discriminate).
    split; [reflexivity |]. split; [eexists; reflexivity |].
    split; [intros; eexists; split; reflexivity | intros; reflexivity].
Qed.

(** A mapping as the file list: once the superclass constructor has
    returned and the storage root is found, the constructor raises
    UnboundLocalError, which its handler of compile errors lets through. *)
Lemma init_mapping_file_list {W : Type} (h : Handler W) (w w1 w2 : W)
    j p lang src self d root :
  h _ (StandardGrader_init j p lang src) w = (inr self, w1) ->
  cfg_getattr (interactive (problem_config (problem self))) "files" = PDict d ->
  h _ (get_problem_root (problem_id (problem self)) (storage_namespace (problem self))) w1
  = (inr (Some root), w2) ->
  run h (__init__ j p lang src) w
  = ([Ev (StandardGrader_init j p lang src) (inr self);
      Ev (get_problem_root (problem_id (problem self)) (storage_namespace (problem self)))
        (inr (Some root))],
     inl (UnboundLocalError "filenames"), w2).
Proof.
  intros Hsuper Hfiles Hroot. rewrite run_init. cbv zeta. rewrite Hsuper.
  unfold _generate_interactor_binary. rewrite Hfiles. simpl. rewrite Hroot. reflexivity.
Qed.

(** *** From construction to the verdict *)

(** What [_launch_process] leaves in [self] when it returns: the submission
    process and the interactor's two pipe ends; the rest is kept. *)
Lemma launch_process_runs self case :
  all_runs (_launch_process self case)
    (fun _ out =>
       forall g, out = inr g ->
                 is_Some (_current_proc (base g))
                 /\ is_Some (_interactor_stdin_pipe g)
                 /\ is_Some (_interactor_stdout_pipe g)
                 /\ problem (base g) = problem (base self)
                 /\ handler_data g = handler_data self
                 /\ interactor_binary g = interactor_binary self
                 /\ contrib_type g = contrib_type self).
Proof.
  unfold _launch_process. simpl.
  intros [e | [interactor_stdin_pipe submission_stdout_pipe]]; simpl; [discriminate |].
  intros [e | [submission_stdin_pipe interactor_stdout_pipe]]; simpl; [discriminate |].
  destruct (py_mul _ _) as [e | wall_time]; simpl; [discriminate |].
  intros [e | proc]; simpl; [discriminate |].
  intros [e | []]; simpl; [discriminate |].
  intros [e | []]; simpl; [discriminate |].
  intros g [= <-]. simpl. repeat split; eexists; reflexivity.
Qed.

(** A grader that was constructed, whose submission was launched and whose
    session returned has everything [check_result] reads. *)
Lemma session_makes_ready {W1 W2 W3 : Type}
    (h1 : Handler W1) (w1 : W1) (h2 : Handler W2) (w2 : W2) (h3 : Handler W3) (w3 : W3)
    j p lang src case result input g0 g1 g2 res data :
  outcome_of h1 (__init__ j p lang src) w1 = inr g0 ->
  outcome_of h2 (_launch_process g0 case) w2 = inr g1 ->
  outcome_of h3 (_interact_with_process g1 case result input) w3 = inr (g2, res, data) ->
  exists m interactor tl ml err, session_ready g2 m interactor tl ml err.
Proof.
  intros Hinit Hlaunch Hsession.
  destruct (init_contrib_type_registered h1 w1 j p lang src g0 Hinit) as [m Hm].
  pose proof (all_runs_sound h2 _ _ w2 (launch_process_runs g0 case) g1 Hlaunch)
    as (_ & _ & _ & _ & _ & _ & Hty1).
  destruct (all_runs_sound h3 _ _ w3 (interact_with_process_runs g1 case result input))
    as (_ & _ & Hret).
  destruct (Hret g2 res data Hsession)
    as (_ & _ & _ & Hty2 & [i Hi] & (tl & _ & Htl) & Hml & [err Herr] & _).
  exists m, i, tl, (interactor_memory_limit (handler_data g1)), err. unfold session_ready.
  rewrite Hty2, Hty1. repeat split; assumption.
Qed.

(** *** More on construction *)

Lemma list_comprehension_paths_inv root l names :
  list_comprehension (os_path_join root) l = inr names ->
  exists fs, mapM as_path l = Some fs /\ names = map (path_join root) fs.
Proof.
  revert names. induction l as [| v l IH]; intros names H; simpl in H.
  - injection H as <-. exists []. split; reflexivity.
  - destruct v; try discriminate H. simpl in H.
    destruct (list_comprehension (os_path_join root) l) as [e | ys]; [discriminate H |].
    injection H as <-. destruct (IH ys eq_refl) as (fs & Hfs & ->).
    exists (s :: fs). split; [| reflexivity].
    apply mapM_Some_2. constructor; [reflexivity | apply mapM_Some_1, Hfs].
Qed.

(** A generation of the binary that returned. *)
Lemma generate_returned {W : Type} (h : Handler W) (w w2 : W) self hd tr b :
  run h (_generate_interactor_binary self hd) w = (tr, inr b, w2) ->
  exists fs root,
    spec_file_list (cfg_getattr hd "files") = Some fs
    /\ tr = [Ev (get_problem_root (problem_id (problem self)) (storage_namespace (problem self)))
               (inr (Some root));
             Ev (compile_with_auxiliary_files (map (path_join root) fs)
                   (cfg_get hd "flags" (PList [])) (cfg_getattr hd "lang")
                   (cfg_getattr hd "compiler_time_limit") (cfg_get hd "unbuffered" (PBool true)))
               (inr b)].
Proof.
  unfold _generate_interactor_binary.
  destruct (cfg_getattr hd "files") as [| | | | f | l | d]; simpl; try discriminate.
  - destruct (h _ _ w) as [[e | [root |]] w1]; simpl; try discriminate.
    destruct (h _ _ w1) as [[e | b'] w3]; simpl; [discriminate |].
    intros [= <- <- <-]. exists [f], root. split; reflexivity.
  - destruct l as [| v l]; simpl;
      [destruct (h _ _ w) as [[e | [root |]] w1]; simpl; discriminate |].
    destruct (h _ _ w) as [[e | [root |]] w1]; simpl; try discriminate.
    pose proof (list_comprehension_paths_inv root (v :: l)) as Hinv. simpl in Hinv.
    destruct (os_path_join root v) as [e | name]; simpl; [discriminate |].
    destruct (list_comprehension (os_path_join root) l) as [e | names]; simpl;
      [discriminate |].
    destruct (Hinv _ eq_refl) as (fs & Hfs & Hnames). rewrite Hnames.
    destruct (h _ _ w1) as [[e | b'] w3]; simpl; [discriminate |].
    intros [= <- <- <-]. exists fs, root. split; [exact Hfs | reflexivity].
  - destruct (h _ _ w) as [[e | [root |]] w1]; simpl; discriminate.
Qed.

(** X1.  A construction that returns has made exactly three calls: the
    superclass constructor, the look-up of the storage root, and one call of
    the compiler on the configured paths joined to the root.  The file list
    was a path or a list of paths, the type is a key of the registry, and
    the grader holds the compiled binary and no session attribute. *)
Theorem init_returning_run {W : Type} (h : Handler W) (w : W) j p lang src g :
  outcome_of h (__init__ j p lang src) w = inr g ->
  init_returned j p lang src (trace_of h (__init__ j p lang src) w) g.
Proof.
  unfold outcome_of, trace_of. rewrite run_init. cbv zeta.
  destruct (h _ _ w) as [[e | self] w1]; simpl; [discriminate |].
  destruct (run h _ w1) as [[tr [e | b]] w2] eqn:Hgen; [destruct e; discriminate |].
  destruct (generate_returned h w1 w2 self _ tr b Hgen) as (fs & root & Hfs & ->).
  destruct (registry_lookup _) as [m |] eqn:Hm; simpl; [| discriminate].
  intros [= <-]. exists self, fs, root, b. cbv zeta.
  split; [exact Hfs |]. split; [rewrite Hm; eexists; reflexivity |].
  split; reflexivity.
Qed.

(** X2.  When the superclass constructor raises, be it the compile error of
    the submission, the constructor raises the same exception unchanged and
    calls nothing else: the interactor is not compiled. *)
Theorem init_superclass_error_propagates {W : Type} (h : Handler W) (w w1 : W)
    j p lang src e :
  h _ (StandardGrader_init j p lang src) w = (inl e, w1) ->
  run h (__init__ j p lang src) w = ([Ev (StandardGrader_init j p lang src) (inl e)], inl e, w1).
Proof.
  intros Hsuper. rewrite run_init. cbv zeta. rewrite Hsuper. reflexivity.
Qed.

(** X3.  When the problem has no storage root, the assertion fails before
    the compiler is called, and the constructor raises AssertionError, not
    InternalError. *)
Theorem init_asserts_problem_root {W : Type} (h : Handler W) (w w1 w2 : W)
    j p lang src self fs :
  h _ (StandardGrader_init j p lang src) w = (inr self, w1) ->
  spec_file_list (cfg_getattr (interactive (problem_config (problem self))) "files") = Some fs ->
  h _ (get_problem_root (problem_id (problem self)) (storage_namespace (problem self))) w1
  = (inr None, w2) ->
  run h (__init__ j p lang src) w
  = ([Ev (StandardGrader_init j p lang src) (inr self);
      Ev (get_problem_root (problem_id (problem self)) (storage_namespace (problem self)))
        (inr None)],
     inl AssertionError, w2).
Proof.
  intros Hsuper Hfiles Hroot. rewrite run_init. cbv zeta. rewrite Hsuper.
  unfold _generate_interactor_binary.
  destruct (cfg_getattr _ "files") as [| | | | f | l | d]; try discriminate Hfiles;
    [| destruct l]; simpl; rewrite Hroot; reflexivity.
Qed.

Lemma string_prefix_app (a b : string) : String.prefix a (a +:+ b) = true.
Proof.
  induction a as [| c a IH]; simpl; [destruct b; reflexivity |].
  destruct (Ascii.ascii_dec c c) as [_ | Hne]; [exact IH | contradiction].
Qed.

Lemma path_join_resolved root f : resolved_under root f (path_join root f).
Proof.
  unfold resolved_under, path_join.
  destruct (str_startswith f "/"); [reflexivity |].
  destruct (String.eqb root "" || str_endswith root "/"); apply string_prefix_app.
Qed.

(** X4.  With a file list that is a path or a list of paths and a storage
    root.  When the list names at least one path, the compiler is called
    exactly once, on as many names as there are configured paths and in
    their order; an absolute path is handed over as it is, a relative one
    behind the root; and what the compiler returns or raises is the outcome.
    When the list is empty, the compiler is not called and UnboundLocalError
    is raised. *)
Theorem generate_resolves_paths {W : Type} (h : Handler W) (w w1 : W) self hd fs root :
  spec_file_list (cfg_getattr hd "files") = Some fs ->
  h _ (get_problem_root (problem_id (problem self)) (storage_namespace (problem self))) w
  = (inr (Some root), w1) ->
  (fs <> [] ->
   exists names,
     omap compiled_files (trace_of h (_generate_interactor_binary self hd) w) = [names]
     /\ Forall2 (resolved_under root) fs names
     /\ outcome_of h (_generate_interactor_binary self hd) w
        = (h _ (compile_with_auxiliary_files names
                  (cfg_get hd "flags" (PList [])) (cfg_getattr hd "lang")
                  (cfg_getattr hd "compiler_time_limit") (cfg_get hd "unbuffered" (PBool true)))
             w1).1)
  /\ (fs = [] ->
      omap compiled_files (trace_of h (_generate_interactor_binary self hd) w) = []
      /\ outcome_of h (_generate_interactor_binary self hd) w
         = inl (UnboundLocalError "filenames")).
Proof.
  intros Hfiles Hroot. split.
  - intros Hfs. exists (map (path_join root) fs).
    unfold trace_of, outcome_of.
    rewrite (generate_compiles_resolved_paths h w w1 self hd fs root Hfiles Hfs Hroot).
    cbv zeta. simpl.
    split; [reflexivity |]. split; [| reflexivity].
    clear. induction fs as [| f fs IH]; simpl; constructor; [apply path_join_resolved | exact IH].
  - intros ->. unfold trace_of, outcome_of, _generate_interactor_binary.
    destruct (cfg_getattr hd "files") as [| | | | f | l | d]; try discriminate Hfiles.
    destruct l as [| v l].
    + simpl. rewrite Hroot. split; reflexivity.
    + exfalso. apply (mapM_Some_1 as_path (v :: l) []) in Hfiles. inversion Hfiles.
Qed.

(** *** More on the verdict *)

(** X5.  Once the contrib module has parsed a verdict, the secondary checker
    is run exactly when no result flag is set, the parsed verdict is passed
    and the case configures a checker other than 'standard'. *)
Theorem check_result_runs_secondary_checker_iff {W : Type} (h : Handler W) (w w1 : W)
    self case result m interactor tl ml err parsed_result :
  session_ready self m interactor tl ml err ->
  h _ (parse_call self case m interactor tl ml err) w = (inr parsed_result, w1) ->
  existsb secondary_check_call (trace_of h (check_result self case result) w) = true
  <-> result_flag result = 0 /\ passed parsed_result = true
      /\ spec_non_default_checker case = true.
Proof.
  intros Hready Hparse. unfold trace_of.
  rewrite (run_check_result h w _ _ _ _ _ _ _ _ Hready). cbv zeta.
  rewrite Hparse, checker_test_spec.
  destruct (Z.eqb_spec (result_flag result) 0) as [Hz | Hnz]; simpl.
  - destruct (passed parsed_result); simpl;
      [destruct (spec_non_default_checker case); simpl |]; split; intros H;
      try discriminate H; try (destruct H as (_ & H1 & H2); discriminate); auto.
  - split; [discriminate | intros [H _]; contradiction].
Qed.

(** X6.  A grader that was constructed and has run no session has no
    interactor: [check_result] raises AttributeError and does not call the
    contrib module. *)
Theorem check_result_before_session {W0 W : Type} (h0 : Handler W0) (w0 : W0)
    (h : Handler W) (w : W) j p lang src g case result :
  outcome_of h0 (__init__ j p lang src) w0 = inr g ->
  run h (check_result g case result) w = ([], inl (AttributeError "_interactor"), w).
Proof.
  unfold outcome_of. rewrite run_init. cbv zeta.
  destruct (h0 _ _ w0) as [[e | self] w1]; simpl; [discriminate |].
  destruct (run h0 _ w1) as [[tr [e | b]] w2]; [destruct e; discriminate |].
  destruct (registry_lookup _) as [m |] eqn:Hm; simpl; [| discriminate].
  intros [= <-]. unfold check_result, registry_getitem. simpl. rewrite Hm. reflexivity.
Qed.

(** *** More on the launch and the session *)

(** Every launch of the submission that returns. *)
Lemma launch_process_returns self case :
  all_runs (_launch_process self case)
    (fun tr out => forall g, out = inr g -> launch_returned self case tr g).
Proof.
  unfold _launch_process. simpl.
  intros [e | [a b]]; simpl; [discriminate |].
  intros [e | [c d]]; simpl; [discriminate |].
  destruct (py_mul _ _) as [e | wall_time] eqn:Hwt; simpl; [discriminate |].
  intros [e | proc]; simpl; [discriminate |].
  intros [e | []]; simpl; [discriminate |].
  intros [e | []]; simpl; [discriminate |].
  intros g [= <-]. exists a, b, c, d, proc, wall_time. simpl.
  repeat split; first [exact Hwt | reflexivity].
Qed.

(** X7.  A launch of the submission that returns has made two pipes,
    launched the submission's binary under the problem's time and memory
    limits and a wall time of the case's factor times the time limit (with
    Python's [*]: a product of numbers, or a string factor repeated), reading
    from the second pipe and writing to the first, and has closed the two
    ends it gave to the submission; the grader is the one it was but for the
    process and the two other ends, which it now holds. *)
Theorem launch_process_returning_run {W : Type} (h : Handler W) (w : W) self case g :
  outcome_of h (_launch_process self case) w = inr g ->
  launch_returned self case (trace_of h (_launch_process self case) w) g.
Proof.
  intros Hout. exact (all_runs_sound h _ _ w (launch_process_returns self case) g Hout).
Qed.

(** The end of a path on which the session raised. *)
Ltac session_raised := solve [ intros ? Hret; discriminate Hret ].

Ltac session_raises :=
  repeat (simpl;
          first [ session_raised
                | intros [? | ?];
                  try match goal with p : (bytes * bytes)%type |- _ => destruct p end ]).

(** Every session that returns. *)
Lemma session_returns self case result input :
  all_runs (_interact_with_process self case result input)
    (fun tr out => forall ret, out = inr ret -> session_returned self case result input tr ret).
Proof.
  unfold _interact_with_process.
  destruct (_current_proc (base self)) as [current_proc |] eqn:Hcp; simpl; [| session_raised].
  destruct (proc_stderr current_proc) as [err0 |] eqn:Herr0; simpl; [| session_raised].
  intros [e | judge_output]; simpl; [session_raised |].
  destruct (interactor_time_limit _ _) as [e | tl] eqn:Htl; simpl; [session_raised |].
  change (mbind ?f ?p) with (bind p f).
  match goal with |- all_runs (bind _ ?f) _ => set (rest := f) end.
  assert (Hrest : forall a,
             all_runs (rest a)
               (fun tr out =>
                  forall ret, out = inr ret ->
                              session_rest_returned self result input current_proc tl
                                judge_output a tr ret)).
  { intros a. subst rest. simpl.
    intros [e | input_file]; simpl; [session_raised |].
    intros [e | answer_file]; simpl; [session_raises |].
    intros [e | chars]; simpl; [session_raises |].
    destruct a as [| | | | template | |]; simpl; try solve [session_raises].
    destruct (str_format _ _) as [e | formatted] eqn:Hformat; simpl; [session_raises |].
    destruct (shlex_split _) as [e | interactor_args] eqn:Hsplit; simpl; [session_raises |].
    destruct (_interactor_stdin_pipe self) as [stdin |] eqn:Hin; simpl; [| session_raises].
    destruct (_interactor_stdout_pipe self) as [stdout |] eqn:Hout; simpl; [| session_raises].
    intros [e | interactor]; simpl; [session_raises |].
    intros [e | []]; simpl; [session_raises |].
    intros [e | []]; simpl; [session_raises |].
    intros [e | [out err]]; simpl; [session_raises |].
    intros [e | z]; simpl; [session_raises |].
    intros [e | data]; simpl; [session_raises |].
    intros [e | []]; simpl; [session_raises |].
    intros [e | []]; simpl; [session_raised |].
    intros ret [= <-].
    exists stdin, stdout,
      {| sr_judge_output := judge_output; sr_template := template;
         sr_input_file := input_file; sr_answer_file := answer_file; sr_chars := chars;
         sr_args := interactor_args; sr_interactor := interactor;
         sr_out := out; sr_err := err; sr_exit := z; sr_stderr := data |}.
    unfold session_args. simpl. rewrite Hformat, Hsplit.
    repeat split; first [reflexivity | assumption]. }
  clearbody rest. apply all_runs_bind.
  destruct (py_truthy _) eqn:Htruthy; simpl.
  - eapply all_runs_mono; [| apply Hrest].
    intros tr out Hpost ret Hret.
    destruct (Hpost ret Hret) as (stdin & stdout & r & Ha & -> & -> & <- & Hin & Hout & Hargs).
    exists current_proc, stdin, stdout, tl, r, [].
    repeat split; try assumption; try reflexivity; [eexists; exact Herr0 |].
    left. repeat split; assumption.
  - unfold registry_getitem. destruct (registry_lookup _) as [m |] eqn:Hm; simpl;
      [| session_raised].
    intros [e | template]; simpl; [session_raised |].
    eapply all_runs_mono; [| apply Hrest].
    intros tr out Hpost ret Hret.
    destruct (Hpost ret Hret) as (stdin & stdout & r & Ha & -> & -> & <- & Hin & Hout & Hargs).
    injection Ha as ->.
    exists current_proc, stdin, stdout, tl, r,
      [Ev (get_interactor_args_format_string m) (inr (sr_template r))].
    repeat split; try assumption; try reflexivity; [eexists; exact Herr0 |].
    right. split; [exact Htruthy |]. exists m. split; [exact Hm | reflexivity].
Qed.

(** X8.  A session that returns has made, in this order and nothing else:
    the reading of the expected output; the request for the contrib module's
    argument template, only when the configuration has none; the two
    temporary files; the random name of the log; the launch of the
    interactor on the formatted and split arguments; the two closes; the
    drain of the interactor; the wait for the submission; the reading of its
    stderr; and the removal of the answer file, then of the input file.  It
    returns the submission's stderr, puts the interactor's output into the
    result without touching the result flag, and stores the interactor, its
    limits and its stderr. *)
Theorem session_returning_run {W : Type} (h : Handler W) (w : W) self case result input ret :
  outcome_of h (_interact_with_process self case result input) w = inr ret ->
  session_returned self case result input
    (trace_of h (_interact_with_process self case result input) w) ret.
Proof.
  intros Hout.
  exact (all_runs_sound h _ _ w (session_returns self case result input) ret Hout).
Qed.

Arguments temp_files_removed : simpl never.

Ltac temp_files_leaf := solve [ unfold temp_files_removed; reflexivity ].

Ltac temp_files_paths :=
  repeat (simpl;
          first [ temp_files_leaf
                | intros [? | ?];
                  try match goal with p : (bytes * bytes)%type |- _ => destruct p end ]).

Lemma session_temp_files self case result input :
  all_runs (_interact_with_process self case result input) (fun tr _ => temp_files_removed tr).
Proof.
  unfold _interact_with_process.
  destruct (_current_proc (base self)) as [current_proc |]; simpl; [| temp_files_leaf].
  destruct (proc_stderr current_proc) as [err0 |]; simpl; [| temp_files_leaf].
  intros [e | judge_output]; simpl; [temp_files_leaf |].
  destruct (interactor_time_limit _ _) as [e | tl]; simpl; [temp_files_leaf |].
  change (mbind ?f ?p) with (bind p f).
  match goal with |- all_runs (bind _ ?f) _ => set (rest := f) end.
  assert (Hrest : forall a, all_runs (rest a) (fun tr _ => temp_files_removed tr)).
  { intros a. subst rest. simpl.
    intros [e | input_file]; simpl; [temp_files_leaf |].
    intros [e | answer_file]; simpl; [temp_files_paths |].
    intros [e | chars]; simpl; [temp_files_paths |].
    destruct a; simpl; try solve [temp_files_paths].
    destruct (str_format _ _) as [e | formatted]; simpl; [temp_files_paths |].
    destruct (shlex_split _) as [e | interactor_args]; simpl; [temp_files_paths |].
    destruct (_interactor_stdin_pipe self) as [stdin |]; simpl; [| temp_files_paths].
    destruct (_interactor_stdout_pipe self) as [stdout |]; simpl; [| temp_files_paths].
    temp_files_paths. }
  clearbody rest. apply all_runs_bind.
  destruct (py_truthy _); simpl.
  - eapply all_runs_mono; [| apply Hrest]. intros tr out Hpost. exact Hpost.
  - unfold registry_getitem. destruct (registry_lookup _) as [m |]; simpl; [| temp_files_leaf].
    intros [e | s]; simpl; [temp_files_leaf |].
    eapply all_runs_mono; [| apply Hrest]. intros tr out Hpost. exact Hpost.
Qed.

(** X9.  In every session, however it ends, the removal of every temporary
    file that was created is called, the answer file before the input file:
    the files handed to removal are the files created, in reverse order. *)
Theorem session_removes_temp_files {W : Type} (h : Handler W) (w : W) self case result input :
  omap removed_file (trace_of h (_interact_with_process self case result input) w)
  = rev (omap created_file (trace_of h (_interact_with_process self case result input) w)).
Proof.
  exact (all_runs_sound h _ _ w (session_temp_files self case result input)).
Qed.

Arguments session_launches : simpl never.
Arguments never_asks_args_format : simpl never.

Ltac session_launch_leaf :=
  solve [ unfold session_launches;
          repeat first
            [ apply List.Forall_nil
            | apply List.Forall_cons;
              [ simpl;
                first [ exact I
                      | repeat split;
                        first [ reflexivity | congruence | eexists; reflexivity ] ]
              | ] ] ].

Ltac session_launch_paths :=
  repeat (simpl;
          first [ session_launch_leaf
                | intros [? | ?];
                  try match goal with p : (bytes * bytes)%type |- _ => destruct p end ]).

Lemma session_launch_runs self case result input :
  all_runs (_interact_with_process self case result input)
    (fun tr _ => session_launches self tr).
Proof.
  unfold _interact_with_process.
  destruct (_current_proc (base self)) as [current_proc |]; simpl; [| session_launch_leaf].
  destruct (proc_stderr current_proc) as [err0 |]; simpl; [| session_launch_leaf].
  intros [e | judge_output]; simpl; [session_launch_leaf |].
  destruct (interactor_time_limit _ _) as [e | tl]; simpl; [session_launch_leaf |].
  change (mbind ?f ?p) with (bind p f).
  match goal with |- all_runs (bind _ ?f) _ => set (rest := f) end.
  assert (Hrest : forall a, all_runs (rest a) (fun tr _ => session_launches self tr)).
  { intros a. subst rest. simpl.
    intros [e | input_file]; simpl; [session_launch_leaf |].
    intros [e | answer_file]; simpl; [session_launch_paths |].
    intros [e | chars]; simpl; [session_launch_paths |].
    destruct a; simpl; try solve [session_launch_paths].
    destruct (str_format _ _) as [e | formatted]; simpl; [session_launch_paths |].
    destruct (shlex_split _) as [e | interactor_args]; simpl; [session_launch_paths |].
    destruct (_interactor_stdin_pipe self) as [stdin |] eqn:Hin; simpl;
      [| session_launch_paths].
    destruct (_interactor_stdout_pipe self) as [stdout |] eqn:Hout; simpl;
      [| session_launch_paths].
    session_launch_paths. }
  clearbody rest. apply all_runs_bind.
  destruct (py_truthy _); simpl.
  - eapply all_runs_mono; [| apply Hrest]. intros tr out Hpost.
    apply List.Forall_cons; [exact I | exact Hpost].
  - unfold registry_getitem. destruct (registry_lookup _) as [m |]; simpl;
      [| session_launch_leaf].
    intros [e | s]; simpl; [session_launch_leaf |].
    eapply all_runs_mono; [| apply Hrest]. intros tr out Hpost.
    do 2 (apply List.Forall_cons; [exact I |]). exact Hpost.
Qed.

(** X10.  Every launch a session makes is of the interactor's binary, on the
    two pipe ends the grader keeps, with stderr captured, no symlinks, no
    wall time and a log file as its file output, under the memory limit of
    the handler configuration; that limit is the configured [memory_limit]
    when it is true (a nonzero number, a nonempty string, list or mapping),
    and the environment's generator memory limit when it is false (a zero,
    [None], an empty string, list or mapping). *)
Theorem session_launch_limits {W : Type} (h : Handler W) (w : W) self case result input :
  let configured := cfg_getattr (handler_data self) "memory_limit" in
  (forall e, e ∈ trace_of h (_interact_with_process self case result input) w ->
             session_launch self e)
  /\ (py_truthy configured = true -> interactor_memory_limit (handler_data self) = configured)
  /\ (py_truthy configured = false ->
      interactor_memory_limit (handler_data self) = cfg_getitem env "generator_memory_limit")
  /\ (forall n, configured = PInt n -> n <> 0 -> py_truthy configured = true)
  /\ (configured = PInt 0 \/ configured = PNone \/ configured = PList []
      \/ configured = PDict ∅ -> py_truthy configured = false).
Proof.
  intros configured. split; [| split; [| split; [| split]]].
  - apply Forall_forall.
    exact (all_runs_sound h _ _ w (session_launch_runs self case result input)).
  - intros Hm. unfold interactor_memory_limit, py_or. fold configured. rewrite Hm. reflexivity.
  - intros Hm. unfold interactor_memory_limit, py_or. fold configured. rewrite Hm. reflexivity.
  - intros n -> Hn. simpl. destruct (Z.eqb_spec n 0); [contradiction | reflexivity].
  - intros [-> | [-> | [-> | ->]]]; reflexivity.
Qed.

Ltac never_asks_leaf := solve [ unfold never_asks_args_format; reflexivity ].

Ltac never_asks_paths :=
  repeat (simpl;
          first [ never_asks_leaf
                | intros [? | ?];
                  try match goal with p : (bytes * bytes)%type |- _ => destruct p end ]).

(** X11.  When the handler configuration has an argument template (a
    nonempty [args_format_string]), no session ever asks a contrib module for
    its default template. *)
Theorem session_template_override {W : Type} (h : Handler W) (w : W)
    self case result input :
  py_truthy (cfg_getattr (handler_data self) "args_format_string") = true ->
  existsb asks_args_format (trace_of h (_interact_with_process self case result input) w)
  = false.
Proof.
  intros Htemplate.
  apply (all_runs_sound h (_interact_with_process self case result input)
           (fun tr _ => never_asks_args_format tr) w).
  unfold _interact_with_process. rewrite Htemplate.
  destruct (_current_proc (base self)) as [current_proc |]; simpl; [| never_asks_leaf].
  destruct (proc_stderr current_proc) as [err0 |]; simpl; [| never_asks_leaf].
  intros [e | judge_output]; simpl; [never_asks_leaf |].
  destruct (interactor_time_limit _ _) as [e | tl]; simpl; [never_asks_leaf |].
  intros [e | input_file]; simpl; [never_asks_leaf |].
  intros [e | answer_file]; simpl; [never_asks_paths |].
  intros [e | chars]; simpl; [never_asks_paths |].
  destruct (cfg_getattr (handler_data self) "args_format_string"); simpl;
    try solve [never_asks_paths].
  destruct (str_format _ _) as [e | formatted]; simpl; [never_asks_paths |].
  destruct (shlex_split _) as [e | interactor_args]; simpl; [never_asks_paths |].
  destruct (_interactor_stdin_pipe self) as [stdin |]; simpl; [| never_asks_paths].
  destruct (_interactor_stdout_pipe self) as [stdout |]; simpl; [| never_asks_paths].
  never_asks_paths.
Qed.

(** *** From the launch to the verdict *)

(** X12.  After a launch of the submission and a session that both return,
    two pipes were made and each of their four ends was closed once by the
    grader: the two given to the submission right after its launch, the two
    given to the interactor right after its launch.  The submission reads
    the second pipe and writes the first; the interactor reads the first and
    writes the second. *)
Theorem launch_then_session_closes_every_pipe_end {W1 W2 : Type}
    (h1 : Handler W1) (w1 : W1) (h2 : Handler W2) (w2 : W2)
    self case result input g ret :
  outcome_of h1 (_launch_process self case) w1 = inr g ->
  outcome_of h2 (_interact_with_process g case result input) w2 = inr ret ->
  let tr := (trace_of h1 (_launch_process self case) w1
             ++ trace_of h2 (_interact_with_process g case result input) w2)%list in
  exists a b c d,
    omap made_pipe tr = [(a, b); (c, d)]
    /\ omap launch_ends tr = [(c, b); (a, d)]
    /\ omap closed_fd tr = [c; b; a; d].
Proof.
  intros Hlaunch Hsession tr. subst tr.
  destruct (all_runs_sound h1 _ _ w1 (launch_process_returns self case) g Hlaunch)
    as (a & b & c & d & proc & wall_time & _ & Htr & ->).
  rewrite Htr.
  destruct (all_runs_sound h2 _ _ w2 (session_returns _ case result input) ret Hsession)
    as (current_proc & stdin & stdout & tl & r & asked & _ & _ & Hin & Hout & _ & Hsrc & _
        & -> & _).
  simpl in Hin, Hout. injection Hin as <-. injection Hout as <-.
  exists a, b, c, d.
  destruct Hsrc as [(_ & _ & ->) | (_ & m & _ & ->)]; repeat split; reflexivity.
Qed.

(** X13.  After a session that returns, the first call of [check_result] for
    any case and result hands to the contrib module the process the session
    launched as the interactor, the interactor's binary, the time and memory
    limits that launch was given, and, raw and decoded, the stderr the drain
    of that process returned. *)
Theorem check_result_after_session {W : Type} (h : Handler W) (w : W)
    self case result input g res data m :
  outcome_of h (_interact_with_process self case result input) w = inr (g, res, data) ->
  registry_lookup (contrib_type self) = Some m ->
  exists interactor args kw out err,
    Ev (launch (interactor_binary self) args kw) (inr interactor)
      ∈ trace_of h (_interact_with_process self case result input) w
    /\ Ev (communicate interactor) (inr (out, err))
         ∈ trace_of h (_interact_with_process self case result input) w
    /\ forall (W' : Type) (h' : Handler W') (w' : W') case' result',
          let o := parse_return_code m interactor (interactor_binary self) (points case')
                     (kw_time kw) (kw_memory kw) "" (utf8text err "replace") "interactor" err in
          exists rest,
            trace_of h' (check_result g case' result') w' = Ev o (h' _ o w').1 :: rest.
Proof.
  intros Hsession Hm.
  destruct (all_runs_sound h _ _ w (session_returns self case result input) _ Hsession)
    as (current_proc & stdin & stdout & tl & r & asked & _ & _ & _ & _ & _ & _ & _
        & -> & Hret).
  injection Hret as -> -> ->.
  eexists (sr_interactor r), (sr_args r), _, (sr_out r), (sr_err r).
  split; [| split].
  - apply list_elem_of_further, elem_of_app. right.
    do 3 apply list_elem_of_further. apply list_elem_of_here.
  - apply list_elem_of_further, elem_of_app. right.
    do 6 apply list_elem_of_further. apply list_elem_of_here.
  - intros W' h' w' case' result' o. unfold trace_of.
    assert (Hready : session_ready (session_self self stdin stdout tl r) m (sr_interactor r)
                       tl (interactor_memory_limit (handler_data self)) (sr_err r))
      by (repeat split; [exact Hm]).
    rewrite (run_check_result h' w' _ _ _ _ _ _ _ _ Hready). subst o. cbv zeta.
    unfold parse_call. simpl.
    destruct (h' _ _ w') as [[e | pr] w1]; simpl; [eexists; reflexivity |].
    destruct (negb (result_flag result' =? 0)); [eexists; reflexivity |].
    destruct (passed pr && _); eexists; reflexivity.
Qed.

(** X14.  With a file list that is neither a path nor a list of paths, the
    generation of the interactor binary never calls the compiler and never
    returns a binary, whatever the environment answers. *)
Theorem generate_never_compiles_malformed {W : Type} (h : Handler W) (w : W) self hd :
  spec_file_list (cfg_getattr hd "files") = None ->
  existsb compile_call (trace_of h (_generate_interactor_binary self hd) w) = false
  /\ (forall b, outcome_of h (_generate_interactor_binary self hd) w <> inr b).
Proof.
  intros Hfiles.
  destruct (generate_malformed_file_list h w self hd Hfiles) as (Hnever & [e He] & _).
  split; [exact Hnever |]. intros b. rewrite He. discriminate.
Qed.

Arguments closes_after_launch : simpl never.

Ltac closes_leaf :=
  solve [ unfold closes_after_launch; simpl; intros Hnone;
          first [ reflexivity | discriminate Hnone ] ].

(** X15.  The grader closes pipe ends only after a launch has returned: when
    the submission cannot be launched, [_launch_process] raises and none of
    the four pipe ends it made is closed; and a session whose launch of the
    interactor does not return closes neither of the interactor's ends. *)
Theorem closes_only_after_launch {W : Type} (h : Handler W) (w : W)
    self case result input :
  closes_after_launch (trace_of h (_launch_process self case) w)
  /\ closes_after_launch (trace_of h (_interact_with_process self case result input) w).
Proof.
  split.
  - apply (all_runs_sound h (_launch_process self case) (fun tr _ => closes_after_launch tr) w).
    unfold _launch_process. simpl.
    intros [e | [a b]]; simpl; [closes_leaf |].
    intros [e | [c d]]; simpl; [closes_leaf |].
    destruct (py_mul _ _) as [e | wall_time]; simpl; [closes_leaf |].
    intros [e | proc]; simpl; [closes_leaf |].
    intros [e | []]; simpl; [closes_leaf |].
    intros [e | []]; simpl; closes_leaf.
  - apply (all_runs_sound h (_interact_with_process self case result input)
             (fun tr _ => closes_after_launch tr) w).
    unfold _interact_with_process.
    destruct (_current_proc (base self)) as [current_proc |]; simpl; [| closes_leaf].
    destruct (proc_stderr current_proc) as [err0 |]; simpl; [| closes_leaf].
    intros [e | judge_output]; simpl; [closes_leaf |].
    destruct (interactor_time_limit _ _) as [e | tl]; simpl; [closes_leaf |].
    change (mbind ?f ?p) with (bind p f).
    match goal with |- all_runs (bind _ ?f) _ => set (rest := f) end.
    assert (Hrest : forall a, all_runs (rest a) (fun tr _ => closes_after_launch tr)).
    { intros a. subst rest.
      repeat (simpl;
              first [ closes_leaf
                    | intros [? | ?];
                      try match goal with p : (bytes * bytes)%type |- _ => destruct p end
                    | match goal with
                      | |- context [match a with _ => _ end] => destruct a
                      | |- context [str_format ?t ?k] => destruct (str_format t k)
                      | |- context [shlex_split ?x] => destruct (shlex_split x)
                      | |- context [_interactor_stdin_pipe self] =>
                          destruct (_interactor_stdin_pipe self)
                      | |- context [_interactor_stdout_pipe self] =>
                          destruct (_interactor_stdout_pipe self)
                      end ]). }
    clearbody rest. apply all_runs_bind.
    destruct (py_truthy _); simpl.
    + eapply all_runs_mono; [| apply Hrest]. intros tr out Hpost. exact Hpost.
    + unfold registry_getitem. destruct (registry_lookup _) as [m |]; simpl; [| closes_leaf].
      intros [e | s]; simpl; [closes_leaf |].
      eapply all_runs_mono; [| apply Hrest]. intros tr out Hpost. exact Hpost.
Qed.

End Grader.

(** ** The grader at work *)

(** The constructor, the launch, the session and the verdict in [ex_world]. *)
Example ex_init :
  run ex_handler (__init__ ex_registry
    ex_float_repr ex_judge (ex_problem ex_handler_data) "PY3" []) ex_world
  = ([Ev (StandardGrader_init ex_judge (ex_problem ex_handler_data) "PY3" [])
        (inr (base ex_self0));
      Ev (get_problem_root "aplusb" None) (inr (Some "/problems/aplusb"));
      Ev (compile_with_auxiliary_files ["/problems/aplusb/interactor.cpp"] (PList [])
            (PStr "CPP17") PNone (PBool true))
        (inr {| executor_id := 2 |})],
     inr ex_self0, ex_world).
Proof. vm_compute. reflexivity. Qed.

Example ex_launch :
  run ex_handler (_launch_process ex_float_of_int ex_self0 ex_case) ex_world
  = ([Ev os_pipe (inr (3, 4));
      Ev os_pipe (inr (5, 6));
      Ev (launch {| executor_id := 1 |} []
            {| kw_time := 1; kw_memory := PInt 65536; kw_symlinks := Some PNone;
               kw_stdin := 5; kw_stdout := 4; kw_stderr_pipe := true;
               kw_wall_time := Some (PInt 3); kw_file_io := None |})
        (inr ex_current_proc);
      Ev (os_close 5) (inr tt);
      Ev (os_close 4) (inr tt)],
     inr ex_self1, ex_world1).
Proof. vm_compute. reflexivity. Qed.

Example ex_session :
  outcome_of ex_handler
    (_interact_with_process ex_registry ex_env ex_shlex_quote ex_shlex_split ex_str_format
      ex_float_of_int
       ex_self1 ex_case ex_result [])
    ex_world1
  = inr (ex_self2, ex_result, []).
Proof. vm_compute. reflexivity. Qed.

Example ex_session_steps :
  omap session_step
    (trace_of ex_handler
       (_interact_with_process ex_registry ex_env ex_shlex_quote ex_shlex_split ex_str_format
         ex_float_of_int
          ex_self1 ex_case ex_result [])
       ex_world1)
  = [(step_launch {| executor_id := 2 |} 3 6, true);
     (step_close 3, true);
     (step_close 6, true);
     (step_communicate ex_interactor, true);
     (step_wait ex_current_proc, true)].
Proof. vm_compute. reflexivity. Qed.

Example ex_ready :
  session_ready ex_registry ex_self2
    {| module_name := "dmoj.contrib.default" |} ex_interactor 3 (PInt 524288) [].
Proof. repeat split; reflexivity. Qed.

(** Scenario A: the interactor passes, no secondary checker, a clean
    submission: the verdict is the interactor's. *)
Example ex_scenario_A :
  outcome_of ex_handler (check_result ex_registry ex_utf8text ex_self2 ex_case ex_result) ex_world2
  = inr (CO_result ex_parsed).
Proof. vm_compute. reflexivity. Qed.

(** Scenario C: the submission exceeded its time limit and the interactor
    passes: the verdict is the bare [False]. *)
Example ex_scenario_C :
  outcome_of ex_handler
    (check_result ex_registry ex_utf8text ex_self2 ex_case ex_result_tle) ex_world2
  = inr (CO_bool false).
Proof. vm_compute. reflexivity. Qed.

(** Scenario D: an unknown contrib-module type. *)
Example ex_scenario_D :
  outcome_of ex_handler
    (__init__ ex_registry
      ex_float_repr ex_judge (ex_problem ex_handler_data_unknown) "PY3" []) ex_world
  = inl (InternalError "nonexistent is not a valid contrib module" None).
Proof. vm_compute. reflexivity. Qed.

(** ** The theorems at work *)

Lemma check_result_fails_on_result_flag_witness :
  exists verdict,
    outcome_of ex_handler
      (check_result ex_registry ex_utf8text ex_self2 ex_case ex_result_tle) ex_world2
    = inr verdict
    /\ verdict_passed verdict = false.
Proof.
  apply (check_result_fails_on_result_flag ex_registry ex_utf8text ex_handler
           ex_world2 ex_world2 ex_self2 ex_case ex_result_tle
           {| module_name := "dmoj.contrib.default" |} ex_interactor 3 (PInt 524288) []
           ex_parsed).
  - repeat split; reflexivity.
  - reflexivity.
  - simpl. lia.
Defined.

Lemma check_result_flag_returns_bare_False_witness :
  run ex_handler (check_result ex_registry ex_utf8text ex_self2 ex_case ex_result_tle) ex_world2
  = ([Ev (parse_call ex_utf8text ex_self2 ex_case
            {| module_name := "dmoj.contrib.default" |} ex_interactor 3 (PInt 524288) [])
        (inr ex_parsed)],
     inr (CO_bool false), ex_world2)
  /\ (forall r : CheckerResult, CO_bool false <> CO_result r).
Proof.
  apply (check_result_flag_returns_bare_False ex_registry ex_utf8text ex_handler
           ex_world2 ex_world2 ex_self2 ex_case ex_result_tle
           {| module_name := "dmoj.contrib.default" |} ex_interactor 3 (PInt 524288) []
           ex_parsed).
  - repeat split; reflexivity.
  - reflexivity.
  - simpl. lia.
Defined.

Lemma check_result_defers_to_secondary_checker_witness :
  outcome_of ex_handler
    (check_result ex_registry ex_utf8text ex_self2 ex_case_custom ex_result) ex_world2
  = inr (CO_bool false).
Proof.
  apply (check_result_defers_to_secondary_checker ex_registry ex_utf8text ex_handler
           ex_world2 ex_world2 ex_self2 ex_case_custom ex_result
           {| module_name := "dmoj.contrib.default" |} ex_interactor 3 (PInt 524288) []
           ex_parsed).
  - repeat split; reflexivity.
  - reflexivity.
  - reflexivity.
Defined.

Lemma check_result_parses_return_code_first_witness :
  run ex_handler
    (check_result ex_registry ex_utf8text ex_self2 ex_case ex_result_tle) ex_world_crashed2
  = ([Ev (parse_call ex_utf8text ex_self2 ex_case
            {| module_name := "dmoj.contrib.default" |} ex_interactor 3 (PInt 524288) [])
        (inl (InternalError "interactor crashed" None))],
     inl (InternalError "interactor crashed" None), ex_world_crashed2).
Proof.
  refine (proj2 (check_result_parses_return_code_first ex_registry ex_utf8text ex_handler
                   ex_world_crashed2 ex_self2 ex_case ex_result_tle
                   {| module_name := "dmoj.contrib.default" |} ex_interactor 3 (PInt 524288) []
                   _)
            (InternalError "interactor crashed" None) _).
  - repeat split; reflexivity.
  - reflexivity.
Defined.

Lemma init_rejects_unknown_contrib_type_witness :
  outcome_of ex_handler
    (__init__ ex_registry
      ex_float_repr ex_judge (ex_problem ex_handler_data_unknown) "PY3" []) ex_world
  = inl (InternalError "nonexistent is not a valid contrib module" None).
Proof.
  destruct (init_rejects_unknown_contrib_type ex_registry ex_float_repr ex_handler ex_world ex_judge
              (ex_problem ex_handler_data_unknown) "PY3" []) as (_ & _ & H).
  destruct (H {| judge := ex_judge; problem := ex_problem ex_handler_data_unknown;
                 language := "PY3"; source := []; binary := {| executor_id := 1 |};
                 _current_proc := None |}
              ex_world
              [Ev (get_problem_root "aplusb" None) (inr (Some "/problems/aplusb"));
               Ev (compile_with_auxiliary_files ["/problems/aplusb/interactor.cpp"] (PList [])
                     (PStr "CPP17") PNone (PBool true))
                 (inr {| executor_id := 2 |})]
              {| executor_id := 2 |} ex_world) as [Hnone _].
  - reflexivity.
  - vm_compute. reflexivity.
  - unfold outcome_of. rewrite Hnone; reflexivity.
Defined.

Lemma init_defaults_contrib_type_witness :
  cfg_get (interactive (problem_config (ex_problem ex_handler_data))) "type" (PStr "default")
  = PStr "default"
  /\ ((exists g, outcome_of ex_handler
                   (__init__ ex_registry
                     ex_float_repr ex_judge (ex_problem ex_handler_data) "PY3" []) ex_world
                 = inr g)
      <-> "default" ∈ dom ex_registry)
  /\ (forall g, outcome_of ex_handler
                  (__init__ ex_registry
                    ex_float_repr ex_judge (ex_problem ex_handler_data) "PY3" []) ex_world
                = inr g ->
                contrib_type g = PStr "default").
Proof.
  apply (init_defaults_contrib_type ex_registry ex_float_repr ex_handler ex_world ex_world ex_world
           ex_judge (ex_problem ex_handler_data) "PY3" [] (base ex_self0)
           [Ev (get_problem_root "aplusb" None) (inr (Some "/problems/aplusb"));
            Ev (compile_with_auxiliary_files ["/problems/aplusb/interactor.cpp"] (PList [])
                  (PStr "CPP17") PNone (PBool true))
              (inr {| executor_id := 2 |})]
           {| executor_id := 2 |}).
  - reflexivity.
  - vm_compute. reflexivity.
  - vm_compute. reflexivity.
Defined.

Lemma init_rethrows_compile_error_as_internal_witness :
  outcome_of ex_handler
    (__init__ ex_registry
      ex_float_repr ex_judge (ex_problem ex_handler_data) "PY3" []) ex_world_broken
  = inl (InternalError "interactor failed compiling"
           (Some (CompileError "interactor.cpp:1: error"))).
Proof.
  destruct (init_rethrows_compile_error_as_internal ex_registry ex_float_repr ex_handler
              ex_world_broken ex_world_broken ex_judge (ex_problem ex_handler_data) "PY3" []
              (base ex_self0)) as [H _].
  - reflexivity.
  - unfold outcome_of.
    rewrite (H [Ev (get_problem_root "aplusb" None) (inr (Some "/problems/aplusb"));
                Ev (compile_with_auxiliary_files ["/problems/aplusb/interactor.cpp"] (PList [])
                      (PStr "CPP17") PNone (PBool true))
                  (inl (CompileError "interactor.cpp:1: error"))]
               "interactor.cpp:1: error" ex_world_broken).
    + reflexivity.
    + vm_compute. reflexivity.
Defined.


Lemma interactor_time_limit_is_preprocessing_plus_limit_witness :
  interactor_time_limit ex_float_of_int (handler_data ex_self1_float)
    (time_limit (problem (base ex_self1_float)))
  = num_add ex_float_of_int (NFloat 0.5) (time_limit (problem (base ex_self1_float))).
Proof.
  refine (proj1 (proj2 (proj2
            (interactor_time_limit_is_preprocessing_plus_limit ex_registry ex_env ex_shlex_quote
               ex_shlex_split ex_str_format ex_float_of_int ex_handler ex_world1 ex_self1_float
               ex_case ex_result []))) (NFloat 0.5) _ _).
  - vm_compute. reflexivity.
  - vm_compute. reflexivity.
Defined.

(** Whole and fractional limits: 2 + 1 with nothing configured; 0.5 + 1.5
    with a fractional preprocessing time and a fractional limit; 2 + 1.5 with
    an empty list where the preprocessing time should be. *)
Example ex_time_limit_int :
  interactor_time_limit ex_float_of_int ex_handler_data 1 = inr (NInt 3).
Proof. vm_compute. reflexivity. Qed.

Example ex_time_limit_float :
  interactor_time_limit ex_float_of_int ex_handler_data_float (NFloat 1.5)
  = inr (NFloat 2).
Proof. vm_compute. reflexivity. Qed.

Example ex_time_limit_empty_list :
  interactor_time_limit ex_float_of_int {[ "preprocessing_time" := PList [] ]} (NFloat 1.5)
  = inr (NFloat 3.5).
Proof. vm_compute. reflexivity. Qed.

(** C3, as the spec states it, fails.  With the field [time_limit] of the
    handler configuration set to 10 and a submission limit of 1, the spec's
    time limit is the override 10 while the code computes 2 + 1; and this is so
    for whatever field is taken to be the override: none replaces the sum. *)
Lemma interactor_time_limit_has_no_override :
  (interactor_time_limit ex_float_of_int {[ "time_limit" := PInt 10 ]} 1 = inr (NInt 3)
   /\ spec_time_limit_with_override ex_float_of_int "time_limit"
        {[ "time_limit" := PInt 10 ]} 1 = inr (NInt 10))
  /\ ~ (exists to_float key, forall hd T,
           interactor_time_limit to_float hd T
           = spec_time_limit_with_override to_float key hd T).
Proof.
  split; [split; vm_compute; reflexivity |].
  intros (to_float & key & H).
  destruct (decide (key = "preprocessing_time")) as [-> | Hne].
  - specialize (H {[ "preprocessing_time" := PInt 5 ]} (NInt 1)). vm_compute in H.
    discriminate H.
  - specialize (H {[ key := PInt 10 ]} (NInt 1)).
    unfold interactor_time_limit, spec_time_limit_with_override, cfg_getattr, cfg_getitem in H.
    rewrite lookup_singleton_eq, lookup_singleton_ne in H by exact Hne.
    vm_compute in H. discriminate H.
Qed.

(** C7, at a handler configuration whose file list is a mapping.  The shape
    is neither a path nor a list of paths, and the constructor, after the
    superclass constructor and the look-up of the storage root, raises
    UnboundLocalError: an exception of the Python run time, not the judge's
    InternalError. *)
Theorem init_mapping_file_list_raises_unbound_local :
  spec_file_list (cfg_getattr ex_handler_data_mapping "files") = None
  /\ run ex_handler
       (__init__ ex_registry
         ex_float_repr ex_judge (ex_problem ex_handler_data_mapping) "PY3" []) ex_world
     = ([Ev (StandardGrader_init ex_judge (ex_problem ex_handler_data_mapping) "PY3" [])
           (inr {| judge := ex_judge; problem := ex_problem ex_handler_data_mapping;
                   language := "PY3"; source := []; binary := {| executor_id := 1 |};
                   _current_proc := None |});
         Ev (get_problem_root "aplusb" None) (inr (Some "/problems/aplusb"))],
        inl (UnboundLocalError "filenames"), ex_world)
  /\ python_error (UnboundLocalError "filenames") = true.
Proof. repeat split; vm_compute; reflexivity. Qed.

(** ** More of the theorems at work *)

Lemma init_returning_run_witness :
  init_returned ex_registry ex_judge (ex_problem ex_handler_data) "PY3" []
    (trace_of ex_handler
       (__init__ ex_registry ex_float_repr ex_judge (ex_problem ex_handler_data) "PY3" []) ex_world)
    ex_self0.
Proof.
  apply (init_returning_run ex_registry ex_float_repr ex_handler ex_world ex_judge
           (ex_problem ex_handler_data) "PY3" [] ex_self0).
  vm_compute. reflexivity.
Defined.

Lemma init_superclass_error_propagates_witness :
  run ex_handler_no_submission
    (__init__ ex_registry ex_float_repr ex_judge (ex_problem ex_handler_data) "PY3" []) ex_world
  = ([Ev (StandardGrader_init ex_judge (ex_problem ex_handler_data) "PY3" [])
        (inl (CompileError "submission.py: error"))],
     inl (CompileError "submission.py: error"), ex_world).
Proof.
  apply (init_superclass_error_propagates ex_registry ex_float_repr ex_handler_no_submission
           ex_world ex_world ex_judge (ex_problem ex_handler_data) "PY3" []
           (CompileError "submission.py: error")).
  reflexivity.
Defined.

Lemma init_asserts_problem_root_witness :
  run ex_handler_no_root
    (__init__ ex_registry ex_float_repr ex_judge (ex_problem ex_handler_data) "PY3" []) ex_world
  = ([Ev (StandardGrader_init ex_judge (ex_problem ex_handler_data) "PY3" [])
        (inr (base ex_self0));
      Ev (get_problem_root "aplusb" None) (inr None)],
     inl AssertionError, ex_world).
Proof.
  apply (init_asserts_problem_root ex_registry
    ex_float_repr ex_handler_no_root ex_world ex_world ex_world
           ex_judge (ex_problem ex_handler_data) "PY3" [] (base ex_self0) ["interactor.cpp"]).
  - reflexivity.
  - vm_compute. reflexivity.
  - reflexivity.
Defined.

Lemma generate_resolves_paths_witness :
  exists names,
    omap compiled_files
      (trace_of ex_handler
         (_generate_interactor_binary (base ex_self1_list) ex_handler_data_list) ex_world)
    = [names]
    /\ Forall2 (resolved_under "/problems/aplusb")
         ["interactor.cpp"; "/opt/testlib/testlib.h"] names
    /\ outcome_of ex_handler
         (_generate_interactor_binary (base ex_self1_list) ex_handler_data_list) ex_world
       = (ex_handler _
            (compile_with_auxiliary_files names
               (cfg_get ex_handler_data_list "flags" (PList []))
               (cfg_getattr ex_handler_data_list "lang")
               (cfg_getattr ex_handler_data_list "compiler_time_limit")
               (cfg_get ex_handler_data_list "unbuffered" (PBool true)))
            ex_world).1.
Proof.
  refine (proj1 (generate_resolves_paths ex_handler ex_world ex_world (base ex_self1_list)
                   ex_handler_data_list ["interactor.cpp"; "/opt/testlib/testlib.h"]
                   "/problems/aplusb" _ _) _).
  - vm_compute. reflexivity.
  - reflexivity.
  - discriminate.
Defined.

(** An empty file list: no compile, the local variable is unbound. *)
Example ex_empty_file_list :
  run ex_handler
    (_generate_interactor_binary (base ex_self0) {[ "files" := PList [] ]}) ex_world
  = ([Ev (get_problem_root "aplusb" None) (inr (Some "/problems/aplusb"))],
     inl (UnboundLocalError "filenames"), ex_world).
Proof. vm_compute. reflexivity. Qed.

Example ex_compiled_files :
  omap compiled_files
    (trace_of ex_handler
       (_generate_interactor_binary (base ex_self1_list) ex_handler_data_list) ex_world)
  = [["/problems/aplusb/interactor.cpp"; "/opt/testlib/testlib.h"]].
Proof. vm_compute. reflexivity. Qed.

Lemma check_result_runs_secondary_checker_iff_witness :
  existsb secondary_check_call
    (trace_of ex_handler
       (check_result ex_registry ex_utf8text ex_self2 ex_case_custom ex_result) ex_world2)
  = true
  <-> result_flag ex_result = 0 /\ passed ex_parsed = true
      /\ spec_non_default_checker ex_case_custom = true.
Proof.
  apply (check_result_runs_secondary_checker_iff ex_registry ex_utf8text ex_handler
           ex_world2 ex_world2 ex_self2 ex_case_custom ex_result
           {| module_name := "dmoj.contrib.default" |} ex_interactor 3 (PInt 524288) []
           ex_parsed).
  - repeat split; reflexivity.
  - reflexivity.
Defined.

Lemma check_result_before_session_witness :
  run ex_handler (check_result ex_registry ex_utf8text ex_self0 ex_case ex_result) ex_world
  = ([], inl (AttributeError "_interactor"), ex_world).
Proof.
  apply (check_result_before_session ex_registry ex_utf8text ex_float_repr ex_handler ex_world
           ex_handler ex_world ex_judge (ex_problem ex_handler_data) "PY3" []).
  vm_compute. reflexivity.
Defined.

Lemma launch_process_returning_run_witness :
  launch_returned ex_float_of_int ex_self0 ex_case
    (trace_of ex_handler (_launch_process ex_float_of_int ex_self0 ex_case) ex_world) ex_self1.
Proof.
  apply (launch_process_returning_run
    ex_float_of_int ex_handler ex_world ex_self0 ex_case ex_self1).
  vm_compute. reflexivity.
Defined.

Lemma session_returning_run_witness :
  session_returned ex_registry ex_env ex_shlex_quote ex_shlex_split ex_str_format ex_float_of_int
    ex_self1 ex_case ex_result []
    (trace_of ex_handler
       (_interact_with_process ex_registry ex_env ex_shlex_quote ex_shlex_split ex_str_format
         ex_float_of_int
          ex_self1 ex_case ex_result [])
       ex_world1)
    (ex_self2, ex_result, []).
Proof.
  apply (session_returning_run ex_registry ex_env ex_shlex_quote ex_shlex_split ex_str_format
    ex_float_of_int
           ex_handler ex_world1 ex_self1 ex_case ex_result []).
  vm_compute. reflexivity.
Defined.

Lemma session_launch_limits_witness :
  interactor_memory_limit ex_env (handler_data ex_self1_list)
  = cfg_getattr (handler_data ex_self1_list) "memory_limit".
Proof.
  refine (proj1 (proj2 (session_launch_limits ex_registry ex_env ex_shlex_quote ex_shlex_split
                          ex_str_format ex_float_of_int ex_handler ex_world1 ex_self1_list
                          ex_case ex_result [])) _).
  vm_compute. reflexivity.
Defined.

(** An empty list where the memory limit should be: the environment's
    default. *)
Example ex_memory_limit_empty_list :
  interactor_memory_limit ex_env {[ "memory_limit" := PList [] ]} = PInt 524288.
Proof. vm_compute. reflexivity. Qed.

Lemma session_template_override_witness :
  existsb asks_args_format
    (trace_of ex_handler
       (_interact_with_process ex_registry ex_env ex_shlex_quote ex_shlex_split ex_str_format
         ex_float_of_int
          ex_self1_list ex_case ex_result [])
       ex_world1)
  = false.
Proof.
  apply (session_template_override ex_registry ex_env ex_shlex_quote ex_shlex_split
           ex_str_format ex_float_of_int ex_handler ex_world1 ex_self1_list ex_case ex_result []).
  vm_compute. reflexivity.
Defined.

Lemma launch_then_session_closes_every_pipe_end_witness :
  exists a b c d,
    omap made_pipe
      (trace_of ex_handler (_launch_process ex_float_of_int ex_self0 ex_case) ex_world
       ++ trace_of ex_handler
            (_interact_with_process ex_registry ex_env ex_shlex_quote ex_shlex_split
               ex_str_format ex_float_of_int ex_self1 ex_case ex_result [])
            ex_world1)%list
    = [(a, b); (c, d)]
    /\ omap launch_ends
         (trace_of ex_handler (_launch_process ex_float_of_int ex_self0 ex_case) ex_world
          ++ trace_of ex_handler
               (_interact_with_process ex_registry ex_env ex_shlex_quote ex_shlex_split
                  ex_str_format ex_float_of_int ex_self1 ex_case ex_result [])
               ex_world1)%list
       = [(c, b); (a, d)]
    /\ omap closed_fd
         (trace_of ex_handler (_launch_process ex_float_of_int ex_self0 ex_case) ex_world
          ++ trace_of ex_handler
               (_interact_with_process ex_registry ex_env ex_shlex_quote ex_shlex_split
                  ex_str_format ex_float_of_int ex_self1 ex_case ex_result [])
               ex_world1)%list
       = [c; b; a; d].
Proof.
  apply (launch_then_session_closes_every_pipe_end ex_registry ex_env ex_shlex_quote
           ex_shlex_split ex_str_format ex_float_of_int ex_handler ex_world ex_handler ex_world1
           ex_self0 ex_case ex_result [] ex_self1 (ex_self2, ex_result, [])).
  - vm_compute. reflexivity.
  - vm_compute. reflexivity.
Defined.

Example ex_pipe_ends :
  omap closed_fd
    (trace_of ex_handler (_launch_process ex_float_of_int ex_self0 ex_case) ex_world
     ++ trace_of ex_handler
          (_interact_with_process ex_registry ex_env ex_shlex_quote ex_shlex_split
             ex_str_format ex_float_of_int ex_self1 ex_case ex_result [])
          ex_world1)%list
  = [5; 4; 3; 6].
Proof. vm_compute. reflexivity. Qed.

Lemma check_result_after_session_witness :
  exists interactor args kw out err,
    Ev (launch (interactor_binary ex_self1) args kw) (inr interactor)
      ∈ trace_of ex_handler
          (_interact_with_process ex_registry ex_env ex_shlex_quote ex_shlex_split
             ex_str_format ex_float_of_int ex_self1 ex_case ex_result [])
          ex_world1
    /\ Ev (communicate interactor) (inr (out, err))
         ∈ trace_of ex_handler
             (_interact_with_process ex_registry ex_env ex_shlex_quote ex_shlex_split
                ex_str_format ex_float_of_int ex_self1 ex_case ex_result [])
             ex_world1
    /\ forall (W' : Type) (h' : Handler W') (w' : W') case' result',
          let o := parse_return_code {| module_name := "dmoj.contrib.default" |} interactor
                     (interactor_binary ex_self1) (points case') (kw_time kw) (kw_memory kw)
                     "" (ex_utf8text err "replace") "interactor" err in
          exists rest,
            trace_of h' (check_result ex_registry ex_utf8text ex_self2 case' result') w'
            = Ev o (h' _ o w').1 :: rest.
Proof.
  apply (check_result_after_session ex_registry ex_env ex_utf8text ex_shlex_quote
           ex_shlex_split ex_str_format
             ex_float_of_int ex_handler ex_world1 ex_self1 ex_case ex_result []
           ex_self2 ex_result []).
  - vm_compute. reflexivity.
  - reflexivity.
Defined.

Lemma generate_never_compiles_malformed_witness :
  existsb compile_call
    (trace_of ex_handler
       (_generate_interactor_binary (base ex_self0) ex_handler_data_mapping) ex_world)
  = false
  /\ (forall b, outcome_of ex_handler
                  (_generate_interactor_binary (base ex_self0) ex_handler_data_mapping) ex_world
                <> inr b).
Proof.
  apply (generate_never_compiles_malformed ex_handler ex_world (base ex_self0)
           ex_handler_data_mapping).
  vm_compute. reflexivity.
Defined.

Lemma closes_only_after_launch_witness :
  omap closed_fd (trace_of ex_handler_no_launch (_launch_process
    ex_float_of_int ex_self0 ex_case) ex_world) = [].
Proof.
  apply (closes_only_after_launch ex_registry ex_env ex_shlex_quote ex_shlex_split
           ex_str_format
             ex_float_of_int ex_handler_no_launch ex_world ex_self0 ex_case ex_result []).
  vm_compute. reflexivity.
Defined.

(** ** Empty, textual and fractional values of the configuration *)

(** An empty mapping where the checker should be counts as no checker: the
    interactor's verdict is returned and the secondary checker is not run. *)
Example ex_checker_empty_mapping :
  run ex_handler
    (check_result ex_registry ex_utf8text ex_self2
       {| position := 3; points := 10; case_config := {[ "checker" := PDict ∅ ]} |}
       ex_result)
    ex_world2
  = ([Ev (parse_call ex_utf8text ex_self2 ex_case
            {| module_name := "dmoj.contrib.default" |} ex_interactor 3 (PInt 524288) [])
        (inr ex_parsed)],
     inr (CO_result ex_parsed), ex_world2).
Proof. vm_compute. reflexivity. Qed.

(** A textual wall-time factor is repeated, and the submission is launched. *)
Example ex_launch_string_factor :
  omap (fun e => match e with
                 | Ev o _ => match o with launch _ _ kw => kw_wall_time kw | _ => None end
                 end)
    (trace_of ex_handler
       (_launch_process ex_float_of_int ex_self0
          {| position := 4; points := 10;
             case_config := {[ "wall_time_factor" := PStr "3" ]} |})
       ex_world)
  = [PStr "3"].
Proof. vm_compute. reflexivity. Qed.

(** A fractional wall-time factor and an integer limit. *)
Example ex_wall_time_fraction :
  py_mul ex_float_of_int (PFloat 2.5) 2 = inr (PFloat 5).
Proof. vm_compute. reflexivity. Qed.

(** An empty list where the argument template should be: the contrib module
    is asked, and the session returns. *)
Example ex_template_empty_list :
  let self :=
    {| base := base ex_self1;
       handler_data := <[ "args_format_string" := PList [] ]> ex_handler_data;
       interactor_binary := interactor_binary ex_self1;
       contrib_type := contrib_type ex_self1;
       _interactor_stdin_pipe := Some 3;
       _interactor_stdout_pipe := Some 6;
       _interactor_time_limit := None;
       _interactor_memory_limit := None;
       _interactor := None;
       _interactor_stderr := None |} in
  existsb asks_args_format
    (trace_of ex_handler
       (_interact_with_process ex_registry ex_env ex_shlex_quote ex_shlex_split ex_str_format
          ex_float_of_int self ex_case ex_result [])
       ex_world1)
  = true
  /\ returned
       (outcome_of ex_handler
          (_interact_with_process ex_registry ex_env ex_shlex_quote ex_shlex_split
             ex_str_format ex_float_of_int self ex_case ex_result [])
          ex_world1)
     = true.
Proof. split; vm_compute; reflexivity. Qed.
